(** * Serial and batched Google Books word counts

    A shallow embedding of the notebook that reads a list of ISBNs from
    [isbn.txt], asks the Google Books API for the metadata of each one and
    counts the words of its description ([get_desc_wc] for a list,
    [get_desc_wc_parallel] for a single ISBN), and of the expression that
    cuts the list into batches.

    The Python values that the code touches are modelled as they are:
    - a [str] is a sequence of Unicode code points;
    - the decoded JSON body is a tree of [dict], [list], [str], [int],
      [float], [bool] and [None];
    - an [int] is an unbounded integer;
    - exceptions are results of the computation, and the requests that
      have been sent are a trace threaded through it. *)

From Stdlib Require Import ZArith String Ascii SpecFloat.
From stdpp Require Import base list gmap.

Set Warnings "-register-all".
Open Scope Z_scope.

(** ** Strings *)

(** A Python 3 [str]: a sequence of code points. *)
Abbreviation str := (list N).

(** A literal of the source, written as an ASCII string. *)
Definition lit (s : string) : str := N_of_ascii <$> list_ascii_of_string s.

Arguments lit s : simpl never.

(** [str.isspace] on one character, as CPython's [_PyUnicode_IsWhitespace]
    lists them: the code points whose bidirectional type is WS, B or S, or
    whose category is Zs. *)
Definition isspace (c : N) : bool :=
  ((9 <=? c) && (c <=? 13) || (28 <=? c) && (c <=? 32) ||
   (c =? 133) || (c =? 160) || (c =? 5760) ||
   (8192 <=? c) && (c <=? 8202) ||
   (c =? 8232) || (c =? 8233) || (c =? 8239) || (c =? 8287) ||
   (c =? 12288))%N.

(** [s.split()] with no separator: the maximal runs of characters that are
    not whitespace, in order. [tok] is the run being read. *)
Fixpoint split_from (tok s : str) : list str :=
  match s with
  | [] => match tok with [] => [] | _ => [tok] end
  | c :: s' =>
      if isspace c
      then match tok with
           | [] => split_from [] s'
           | _ => tok :: split_from [] s'
           end
      else split_from (tok ++ [c]) s'
  end.

Definition split (s : str) : list str := split_from [] s.

(** [s.lstrip()], [s.rstrip()] and [s.strip()] with no argument. *)
Fixpoint lstrip (s : str) : str :=
  match s with
  | [] => []
  | c :: s' => if isspace c then lstrip s' else s
  end.

Definition rstrip (s : str) : str := reverse (lstrip (reverse s)).

Definition strip (s : str) : str := rstrip (lstrip s).

(** [len(x)] of a list or a string, a Python [int]. *)
Definition len {A} (l : list A) : Z := Z.of_nat (length l).

(** ** Exceptions *)

Inductive exn : Set :=
  | KeyError
  | IndexError
  | TypeError
  | AttributeError
  | ValueError
  | RequestException.

#[global] Instance exn_eq_dec : EqDecision exn.
Proof. solve_decision. Defined.

(** The outcome of evaluating an expression: a value or a raised
    exception. *)
Inductive result (A : Type) : Type :=
  | Ok (a : A)
  | Raise (e : exn).

Arguments Ok {A} a.
Arguments Raise {A} e.

#[global] Instance result_ret : MRet result := λ A a, Ok a.
#[global] Instance result_bind : MBind result := λ A B f r,
  match r with
  | Ok a => f a
  | Raise e => Raise e
  end.
#[global] Instance result_fmap : FMap result := λ A B f r,
  match r with
  | Ok a => Ok (f a)
  | Raise e => Raise e
  end.

(** ** Decoded JSON *)

(** What [r.json()] returns. A JSON object becomes a [dict] whose keys are
    strings. *)
Inductive json : Type :=
  | JNone
  | JBool (b : bool)
  | JInt (n : Z)
  | JFloat (f : spec_float)
  | JStr (s : str)
  | JList (l : list json)
  | JDict (d : gmap str json).

(** [seq[i]] on a list or a string: a negative index counts from the
    end, an index out of range raises [IndexError]. *)
Definition sequence_index {A} (l : list A) (i : Z) : result A :=
  let j := if i <? 0 then i + len l else i in
  if j <? 0 then Raise IndexError
  else match l !! Z.to_nat j with
       | Some x => Ok x
       | None => Raise IndexError
       end.

(** [obj[key]] for a string [key]. *)
Definition getitem_str (obj : json) (key : str) : result json :=
  match obj with
  | JDict d =>
      match d !! key with
      | Some v => Ok v
      | None => Raise KeyError
      end
  | _ => Raise TypeError
  end.

(** [obj[i]] for an integer [i]. No [dict] decoded from JSON has an
    integer key, so on a [dict] the lookup raises [KeyError]. *)
Definition getitem_int (obj : json) (i : Z) : result json :=
  match obj with
  | JDict _ => Raise KeyError
  | JList l => sequence_index l i
  | JStr s => c ← sequence_index s i; Ok (JStr [c])
  | _ => Raise TypeError
  end.

(** [obj.split()]: only a [str] has the method. *)
Definition method_split (obj : json) : result (list str) :=
  match obj with
  | JStr s => Ok (split s)
  | _ => Raise AttributeError
  end.

(** ** The network *)

(** The requests sent so far, oldest first. *)
Abbreviation trace := (list str).

(** What [requests.get] gives back: the body as [r.json()] decodes it,
    [None] when the body is not JSON. *)
Record response : Type := Response { body : option json }.

Inductive http_outcome : Type :=
  | NetworkError
  | Answer (r : response).

(** A computation that sends requests: it starts from the trace of the
    requests already sent and ends with a value or an exception, and the
    trace extended with its own requests. *)
Definition M (A : Type) : Type := trace → result A * trace.

#[global] Instance M_ret : MRet M := λ A a t, (Ok a, t).
#[global] Instance M_bind : MBind M := λ A B f m t,
  match m t with
  | (Ok a, t') => f a t'
  | (Raise e, t') => (Raise e, t')
  end.

(** An expression that sends nothing. *)
Definition pure {A} (r : result A) : M A := λ t, (r, t).

(** [try: body except e: handler]. *)
Definition try_except {A} (body : M A) (e : exn) (handler : M A) : M A :=
  λ t,
  match body t with
  | (Raise e', t') => if decide (e' = e) then handler t' else (Raise e', t')
  | r => r
  end.

(** ** The notebook *)

(** [url = "https://www.googleapis.com/books/v1/volumes?q=isbn:"] *)
Definition url : str := lit "https://www.googleapis.com/books/v1/volumes?q=isbn:".

Arguments url : simpl never.

(** [data['items'][0]['volumeInfo']['description']] *)
Definition description_of (data : json) : result json :=
  items ← getitem_str data (lit "items");
  item ← getitem_int items 0;
  volumeInfo ← getitem_str item (lit "volumeInfo");
  getitem_str volumeInfo (lit "description").

Section Notebook.

(** The world outside: the answer to a GET of a URL, which may depend on
    the requests that came before it. *)
Context (server : trace → str → http_outcome).

(** [requests.get(u)]. *)
Definition requests_get (u : str) : M response := λ t,
  match server t u with
  | NetworkError => (Raise RequestException, t ++ [u])
  | Answer r => (Ok r, t ++ [u])
  end.

(** [r.json()]. *)
Definition response_json (r : response) : M json :=
  pure match body r with
       | Some data => Ok data
       | None => Raise ValueError
       end.

(** [get_desc_wc_parallel(isbn)] *)
Definition get_desc_wc_parallel (isbn : str) : M Z :=
  let wc := 0 in
  r ← requests_get (url ++ isbn);
  data ← response_json r;
  wc ← try_except
         (description ← pure (description_of data);
          words ← pure (method_split description);
          mret (len words))
         KeyError
         (mret wc);
  mret wc.

(** The loop of [get_desc_wc]: [wc_list] is the list being appended to. *)
Fixpoint get_desc_wc_loop (isbn_list : list str) (wc_list : list Z) : M (list Z) :=
  match isbn_list with
  | [] => mret wc_list
  | isbn :: rest =>
      r ← requests_get (url ++ isbn);
      data ← response_json r;
      wc_list ← try_except
                  (description ← pure (description_of data);
                   words ← pure (method_split description);
                   mret (wc_list ++ [len words]))
                  KeyError
                  (mret (wc_list ++ [0]));
      get_desc_wc_loop rest wc_list
  end.

(** [get_desc_wc(isbn_list)] *)
Definition get_desc_wc (isbn_list : list str) : M (list Z) :=
  get_desc_wc_loop isbn_list [].

End Notebook.

(** ** Reading the identifiers *)

(** The text of a file opened with [open(name)]: in text mode with the
    default [newline=None], the line endings ["\r\n"] and ["\r"] of the
    file reach the program as ["\n"]. *)
Fixpoint universal_newlines (s : str) : str :=
  match s with
  | [] => []
  | c :: s' =>
      if (c =? 13)%N
      then 10%N :: match s' with
                   | [] => []
                   | c' :: s'' =>
                       if (c' =? 10)%N then universal_newlines s''
                       else universal_newlines s'
                   end
      else c :: universal_newlines s'
  end.

(** The lines that iterating over a text yields: each one runs up to and
    includes its ["\n"]; the last one has none when the text does not end
    with one. [cur] is the line being read. *)
Fixpoint lines_from (cur s : str) : list str :=
  match s with
  | [] => match cur with [] => [] | _ => [cur] end
  | c :: s' =>
      if (c =? 10)%N then (cur ++ [c]) :: lines_from [] s'
      else lines_from (cur ++ [c]) s'
  end.

(** [for isbn in file], for a file whose decoded content is [content]. *)
Definition file_lines (content : str) : list str :=
  lines_from [] (universal_newlines content).

(** [isbn_list = [isbn.strip() for isbn in file]] *)
Definition read_isbn_list (content : str) : list str :=
  strip <$> file_lines content.

(** ** Batches *)

(** The number of elements of [range(lo, hi, step)] for a positive
    [step], as CPython computes it. *)
Definition range_length (lo hi step : Z) : Z :=
  if lo <? hi then 1 + (hi - 1 - lo) / step else 0.

(** [range(start, stop, step)]; a zero [step] raises [ValueError]. *)
Definition range (start stop step : Z) : result (list Z) :=
  if step =? 0 then Raise ValueError
  else
    let n := if 0 <? step then range_length start stop step
             else range_length stop start (- step) in
    Ok ((λ k : nat, start + Z.of_nat k * step) <$> seq 0 (Z.to_nat n)).

(** A bound of a slice brought into [0 .. len], as [l[i:j]] does: a
    negative bound counts from the end. *)
Definition slice_bound (length i : Z) : Z :=
  if i <? 0 then Z.max 0 (i + length) else Z.min i length.

(** [l[i:j]] *)
Definition slice {A} (l : list A) (i j : Z) : list A :=
  let a := slice_bound (len l) i in
  let b := slice_bound (len l) j in
  take (Z.to_nat (b - a)) (drop (Z.to_nat a) l).

(** [[isbn_list[i:i + n] for i in range(0, len(isbn_list), n)]] *)
Definition isbn_batches {A} (isbn_list : list A) (n : Z) : result (list (list A)) :=
  (λ starts : list Z, (λ i, slice isbn_list i (i + n)) <$> starts)
    <$> range 0 (len isbn_list) n.

(** ** The words of the specification *)

(** The number of whitespace-separated tokens of a string: the number of
    places where a character that is not whitespace stands at the start
    of the string or right after a whitespace character.
    [after_space] tells whether the previous character was one. *)
Fixpoint token_starts (after_space : bool) (s : str) : nat :=
  match s with
  | [] => 0
  | c :: s' =>
      if isspace c then token_starts true s'
      else (if after_space then 1 else 0)%nat + token_starts false s'
  end.

Definition whitespace_token_count (s : str) : nat := token_starts true s.

(** What it is for [id] to be [line] stripped of the whitespace at its
    two ends. *)
Definition stripped_of (line id : str) : Prop :=
  ∃ pre post,
    line = pre ++ id ++ post ∧
    Forall (λ c, isspace c) pre ∧ Forall (λ c, isspace c) post ∧
    (∀ c, head id = Some c → ¬ isspace c) ∧
    (∀ c, last id = Some c → ¬ isspace c).

(** What a line is: not empty, with no newline except, possibly, as its
    last character. *)
Definition is_line (line : str) : Prop :=
  line ≠ [] ∧ ∃ b, (10%N ∉ b) ∧ (line = b ++ [10%N] ∨ line = b).

(** The word count that one decoded response stands for: the number of
    words of its description, zero when a key on the way is missing. *)
Definition word_count (data : json) : result Z :=
  match description_of data with
  | Ok description => words ← method_split description; Ok (len words)
  | Raise KeyError => Ok 0
  | Raise e => Raise e
  end.

(** The same, said without the code: [n] is the number of
    whitespace-separated tokens of the description when the lookup finds
    a string, and zero when the lookup raises [KeyError]. *)
Definition is_word_count (data : json) (n : Z) : Prop :=
  (∃ s, description_of data = Ok (JStr s) ∧ n = Z.of_nat (whitespace_token_count s)) ∨
  (description_of data = Raise KeyError ∧ n = 0).

(** A server that answers every request with the same decoded body. *)
Definition always (data : json) : trace → str → http_outcome :=
  λ _ _, Answer (Response (Some data)).

(** A server with a fixed assignment of outcomes to ISBNs: whatever was
    sent before, the request for an ISBN gets the outcome assigned to
    it. *)
Definition assigned (f : str → http_outcome) : trace → str → http_outcome :=
  λ _ u, f (drop (length url) u).

(** A server that answers the k-th request with the k-th element of a
    list, and fails when the list is exhausted. *)
Definition scripted (rs : list http_outcome) : trace → str → http_outcome :=
  λ t _, default NetworkError (rs !! length t).

(** [{key: value}] *)
Definition dict1 (key : string) (value : json) : json :=
  JDict {[ lit key := value ]}.

(** [{'items': [{'volumeInfo': {'description': description}}]}] *)
Definition book (description : string) : json :=
  dict1 "items" (JList [dict1 "volumeInfo" (dict1 "description" (JStr (lit description)))]).

(** [{'items': [{'volumeInfo': {'title': 'Untitled'}}]}] *)
Definition book_without_description : json :=
  dict1 "items" (JList [dict1 "volumeInfo" (dict1 "title" (JStr (lit "Untitled")))]).

(** [{'totalItems': 0}], the answer for an ISBN that is not found. *)
Definition no_items : json := dict1 "totalItems" (JInt 0).

(** [{'items': []}] *)
Definition empty_items : json := dict1 "items" (JList []).

(** The outcome of the body of either function for one ISBN, when the
    requests in [t] have been sent before: the request may fail, the body
    may not be JSON, and otherwise the decoded body gives the count. *)
Definition item_outcome (server : trace → str → http_outcome)
    (t : trace) (isbn : str) : result Z :=
  match server t (url ++ isbn) with
  | NetworkError => Raise RequestException
  | Answer r =>
      match body r with
      | Some data => word_count data
      | None => Raise ValueError
      end
  end.

(** [[f(x) for x in l]] *)
Fixpoint comprehension {A B} (f : A → M B) (l : list A) : M (list B) :=
  match l with
  | [] => mret []
  | x :: l' => y ← f x; ys ← comprehension f l'; mret (y :: ys)
  end.

(** The URLs of the first [k] ISBNs of a list, in order. *)
Definition urls_of (l : list str) (k : nat) : trace := (λ isbn, url ++ isbn) <$> take k l.

(** What a pass over a list of ISBNs comes to, position by position: the
    counts of the ISBNs up to the first one whose body raises, and the
    requests sent. *)
Fixpoint outcomes (server : trace → str → http_outcome)
    (l : list str) (t : trace) : result (list Z) * trace :=
  match l with
  | [] => (Ok [], t)
  | isbn :: rest =>
      match item_outcome server t isbn with
      | Ok n =>
          let (r, t') := outcomes server rest (t ++ [url ++ isbn]) in
          (cons n <$> r, t')
      | Raise e => (Raise e, t ++ [url ++ isbn])
      end
  end.

(** ** The other cells of the notebook *)

(** The first look at one book, before the functions are written:
    [r = requests.get(url + isbn_list[50]); data = r.json()] and then
    [description = data['items'][0]['volumeInfo']['description']] and
    [wc = len(description.split())], with no [try]. *)
Definition first_look (server : trace → str → http_outcome)
    (isbn_list : list str) : M Z :=
  isbn ← pure (sequence_index isbn_list 50);
  r ← requests_get server (url ++ isbn);
  data ← response_json r;
  description ← pure (description_of data);
  words ← pure (method_split description);
  mret (len words).

(** [isbn_list * k]: [k] copies of the list, one after the other, and the
    empty list when [k] is not positive. *)
Definition list_mul {A} (l : list A) (k : Z) : list A :=
  concat (replicate (Z.to_nat k) l).

(** What the cell that builds the batches prints:
    [len(isbn_batches), len(isbn_batches[0])]. *)
Definition batches_shape {A} (isbn_list : list A) (n : Z) : result (Z * Z) :=
  batches ← isbn_batches isbn_list n;
  first ← sequence_index batches 0;
  Ok (len batches, len first).

(** A text with one identifier per line, each line ended by [eol], and a
    last line [rest] that has no line ending. *)
Definition one_per_line (eol : str) (ids : list str) (rest : str) : str :=
  concat ((λ id, id ++ eol) <$> ids) ++ rest.

(** An identifier that a line can hold as it is: no whitespace at its
    ends and no line ending inside. *)
Definition clean (id : str) : Prop :=
  strip id = id ∧ (10%N ∉ id) ∧ (13%N ∉ id).

(** * Facts *)

(** ** The model at work *)

Example split_example :
  split (lit "  An anthology of  essays ")
  = [lit "An"; lit "anthology"; lit "of"; lit "essays"].
Proof. reflexivity. Qed.

Example strip_example : strip (lit " 0435910108 ") = lit "0435910108".
Proof. reflexivity. Qed.

Example file_lines_example :
  file_lines (lit "0435910108" ++ [13; 10]%N ++ lit "0618155872" ++ [10]%N)
  = [lit "0435910108" ++ [10]%N; lit "0618155872" ++ [10]%N].
Proof. reflexivity. Qed.

Example description_of_book :
  description_of (book "A novel") = Ok (JStr (lit "A novel")).
Proof. vm_compute. reflexivity. Qed.

Example description_of_no_items : description_of no_items = Raise KeyError.
Proof. vm_compute. reflexivity. Qed.

Example get_desc_wc_example :
  get_desc_wc
    (scripted [Answer (Response (Some (book "A novel")));
               Answer (Response (Some no_items));
               Answer (Response (Some book_without_description))])
    [lit "0435910108"; lit "0618155872"; lit "0140283331"] []
  = (Ok [2; 0; 0],
     [url ++ lit "0435910108"; url ++ lit "0618155872"; url ++ lit "0140283331"]).
Proof. vm_compute. reflexivity. Qed.

Example isbn_batches_example :
  isbn_batches [1; 2; 3; 4; 5] 2 = Ok [[1; 2]; [3; 4]; [5]].
Proof. reflexivity. Qed.

(** ** One ISBN *)

Section OneISBN.
Context (server : trace → str → http_outcome).

Lemma bind_run {A B} (m : M A) (f : A → M B) (t : trace) :
  (m ≫= f) t
  = match m t with
    | (Ok a, t') => f a t'
    | (Raise e, t') => (Raise e, t')
    end.
Proof. reflexivity. Qed.

Lemma response_json_run (r : response) (t : trace) :
  response_json r t
  = (match body r with Some data => Ok data | None => Raise ValueError end, t).
Proof. reflexivity. Qed.

Lemma try_word_count {A} (data : json) (k : Z → A) (other : A) (t : trace) :
  try_except
    (description ← pure (description_of data);
     words ← pure (method_split description);
     mret (k (len words)))
    KeyError (mret other) t
  = (match description_of data with
     | Ok description => words ← method_split description; Ok (k (len words))
     | Raise KeyError => Ok other
     | Raise e => Raise e
     end, t).
Proof.
  unfold try_except. rewrite bind_run. unfold pure at 1.
  destruct (description_of data) as [description|e]; simpl.
  - rewrite bind_run. unfold pure.
    destruct (method_split description) eqn:Hs; simpl; [done|].
    by destruct description; simplify_eq/=.
  - by destruct e.
Qed.

Lemma get_desc_wc_parallel_outcome (isbn : str) (t : trace) :
  get_desc_wc_parallel server isbn t
  = (item_outcome server t isbn, t ++ [url ++ isbn]).
Proof.
  unfold get_desc_wc_parallel, item_outcome.
  rewrite bind_run. unfold requests_get at 1.
  destruct (server t (url ++ isbn)) as [|[[data|]]];
    rewrite ?bind_run, ?response_json_run; cbn; try done.
  rewrite bind_run.
  pose proof (try_word_count data (λ n, n) 0 (t ++ [url ++ isbn])) as ->.
  unfold word_count.
  destruct (description_of data) as [description|[]]; cbn; try done.
  by destruct (method_split description).
Qed.

End OneISBN.

(** ** A list of ISBNs *)

Section ListOfISBNs.
Context (server : trace → str → http_outcome).

Lemma get_desc_wc_loop_cons (isbn : str) (rest : list str) (wc_list : list Z) (t : trace) :
  get_desc_wc_loop server (isbn :: rest) wc_list t
  = match item_outcome server t isbn with
    | Ok n => get_desc_wc_loop server rest (wc_list ++ [n]) (t ++ [url ++ isbn])
    | Raise e => (Raise e, t ++ [url ++ isbn])
    end.
Proof.
  cbn [get_desc_wc_loop]. unfold item_outcome.
  rewrite bind_run. unfold requests_get at 1.
  destruct (server t (url ++ isbn)) as [|[[data|]]];
    rewrite ?bind_run, ?response_json_run; cbn; try done.
  rewrite bind_run.
  pose proof (try_word_count data (λ n, wc_list ++ [n]) (wc_list ++ [0])
                (t ++ [url ++ isbn])) as ->.
  unfold word_count.
  destruct (description_of data) as [description|[]]; cbn; try done.
  by destruct (method_split description).
Qed.

Lemma get_desc_wc_loop_outcomes (l : list str) (wc_list : list Z) (t : trace) :
  get_desc_wc_loop server l wc_list t
  = (app wc_list <$> (outcomes server l t).1, (outcomes server l t).2).
Proof.
  revert wc_list t. induction l as [|isbn rest IH]; intros wc_list t.
  - cbn. by rewrite app_nil_r.
  - rewrite get_desc_wc_loop_cons. cbn [outcomes].
    destruct (item_outcome server t isbn) as [n|e]; [|done].
    rewrite IH. destruct (outcomes server rest (t ++ [url ++ isbn])) as [[ns|e] t'];
      cbn; [|done].
    by rewrite <- app_assoc.
Qed.

Lemma comprehension_outcomes (l : list str) (t : trace) :
  comprehension (get_desc_wc_parallel server) l t = outcomes server l t.
Proof.
  revert t. induction l as [|isbn rest IH]; intros t; [done|].
  cbn [comprehension outcomes]. rewrite bind_run, get_desc_wc_parallel_outcome.
  destruct (item_outcome server t isbn) as [n|e]; [|done].
  rewrite bind_run, IH.
  by destruct (outcomes server rest (t ++ [url ++ isbn])) as [[ns|e] t'].
Qed.

Lemma get_desc_wc_outcomes (l : list str) (t : trace) :
  get_desc_wc server l t = outcomes server l t.
Proof.
  unfold get_desc_wc. rewrite get_desc_wc_loop_outcomes.
  by destruct (outcomes server l t) as [[ns|e] t'].
Qed.

Lemma urls_of_succ (isbn : str) (rest : list str) (t : trace) (i : nat) :
  t ++ urls_of (isbn :: rest) (S i) = (t ++ [url ++ isbn]) ++ urls_of rest i.
Proof. unfold urls_of. cbn. by rewrite <- app_assoc. Qed.

Lemma urls_of_zero (l : list str) (t : trace) : t ++ urls_of l 0 = t.
Proof. unfold urls_of. rewrite take_0. apply app_nil_r. Qed.

(** The requests of a pass are the URLs of a prefix of the list: all of
    it when the pass returns, up to the ISBN whose body raised
    otherwise. *)
Lemma outcomes_trace (l : list str) (t : trace) :
  ∃ k : nat,
    (k ≤ length l)%nat ∧
    (outcomes server l t).2 = t ++ urls_of l k ∧
    match (outcomes server l t).1 with
    | Ok _ => k = length l
    | Raise e =>
        ∃ (j : nat) (isbn : str),
          k = S j ∧ l !! j = Some isbn ∧
          item_outcome server (t ++ urls_of l j) isbn = Raise e
    end.
Proof.
  revert t. induction l as [|isbn rest IH]; intros t.
  - exists 0%nat. by rewrite urls_of_zero.
  - cbn [outcomes]. destruct (item_outcome server t isbn) as [n|e] eqn:Hout.
    + destruct (IH (t ++ [url ++ isbn])) as (k & Hk & Ht & Hr).
      exists (S k). rewrite urls_of_succ.
      destruct (outcomes server rest (t ++ [url ++ isbn])) as [[ns|e] t'];
        cbn in *; repeat split; auto with lia.
      destruct Hr as (j & isbn' & -> & Hj & He).
      exists (S j), isbn'. by rewrite urls_of_succ.
    + exists 1%nat. rewrite urls_of_succ, !urls_of_zero. cbn.
      repeat split; auto with lia. exists 0%nat, isbn.
      by rewrite urls_of_zero.
Qed.

(** A pass returns [ns] exactly when [ns] lists, position by position, the
    counts that the bodies give. *)
Lemma outcomes_Ok (l : list str) (t : trace) (ns : list Z) :
  (outcomes server l t).1 = Ok ns ↔
  length ns = length l ∧
  ∀ (i : nat) (isbn : str), l !! i = Some isbn →
    ∃ n, ns !! i = Some n ∧ item_outcome server (t ++ urls_of l i) isbn = Ok n.
Proof.
  revert t ns. induction l as [|isbn rest IH]; intros t ns.
  - cbn. split.
    + intros [= <-]. split; [done|]. intros i isbn Hi. by destruct i.
    + intros [Hlen _]. by destruct ns.
  - cbn [outcomes]. split.
    + destruct (item_outcome server t isbn) as [n|e] eqn:Hn; [|done].
      destruct (outcomes server rest (t ++ [url ++ isbn])) as [[ns'|e] t'] eqn:Ho;
        [|done].
      cbn. intros [= <-].
      destruct (proj1 (IH (t ++ [url ++ isbn]) ns')) as [Hlen Hpos];
        [by rewrite Ho|].
      split; [cbn; lia|]. intros [|i] isbn' Hi; cbn in Hi.
      * simplify_eq. exists n. by rewrite urls_of_zero.
      * rewrite urls_of_succ. by apply Hpos.
    + intros [Hlen Hpos]. destruct ns as [|n ns']; [done|].
      destruct (Hpos 0%nat isbn eq_refl) as (n' & [= <-] & Hn).
      rewrite urls_of_zero in Hn. rewrite Hn.
      assert ((outcomes server rest (t ++ [url ++ isbn])).1 = Ok ns') as Ho.
      { apply IH. split; [cbn in Hlen; lia|]. intros i isbn' Hi.
        rewrite <- urls_of_succ. by apply (Hpos (S i)). }
      destruct (outcomes server rest (t ++ [url ++ isbn])) as [r t'].
      cbn in Ho. by subst r.
Qed.

(** A pass raises what the body raises for the first ISBN for which it
    does, after one request for it and for each ISBN before it. *)
Lemma outcomes_Raise (l : list str) (t : trace) (k : nat) (isbn : str) (e : exn) :
  l !! k = Some isbn →
  (∀ (i : nat) (isbn' : str), (i < k)%nat → l !! i = Some isbn' →
     ∃ n, item_outcome server (t ++ urls_of l i) isbn' = Ok n) →
  item_outcome server (t ++ urls_of l k) isbn = Raise e →
  outcomes server l t = (Raise e, t ++ urls_of l (S k)).
Proof.
  revert t k. induction l as [|isbn0 rest IH]; intros t k Hk Hbefore He; [done|].
  cbn [outcomes]. destruct k as [|k]; cbn in Hk.
  - simplify_eq. rewrite urls_of_zero in He. rewrite He.
    by rewrite urls_of_succ, urls_of_zero.
  - destruct (Hbefore 0%nat isbn0) as [n Hn]; [lia|done|].
    rewrite urls_of_zero in Hn. rewrite Hn.
    rewrite (IH (t ++ [url ++ isbn0]) k); [by rewrite <- urls_of_succ|done| |].
    + intros i isbn' Hi Hl. rewrite <- urls_of_succ.
      apply (Hbefore (S i)); [lia|done].
    + by rewrite <- urls_of_succ.
Qed.

End ListOfISBNs.

(** ** Two servers *)

Section TwoServers.
Context (server1 server2 : trace → str → http_outcome).

Lemma item_outcome_ext (t : trace) (isbn : str) :
  server1 t (url ++ isbn) = server2 t (url ++ isbn) →
  item_outcome server1 t isbn = item_outcome server2 t isbn.
Proof. unfold item_outcome. by intros ->. Qed.

(** Servers that answer alike at every position of a pass give the same
    pass. *)
Lemma outcomes_ext (l : list str) (t : trace) :
  (∀ (i : nat) (isbn : str), l !! i = Some isbn →
     server1 (t ++ urls_of l i) (url ++ isbn)
     = server2 (t ++ urls_of l i) (url ++ isbn)) →
  outcomes server1 l t = outcomes server2 l t.
Proof.
  revert t. induction l as [|isbn rest IH]; intros t Hsame; [done|].
  cbn [outcomes].
  rewrite (item_outcome_ext t isbn).
  2:{ specialize (Hsame 0%nat isbn eq_refl). by rewrite urls_of_zero in Hsame. }
  destruct (item_outcome server2 t isbn) as [n|e]; [|done].
  rewrite IH; [done|]. intros i isbn' Hi.
  rewrite <- urls_of_succ. by apply (Hsame (S i)).
Qed.

(** When the two servers differ only in the answer to the request at
    position [k], for which the body gives zero with the first and some
    count with the second, the pass with the first is the pass with the
    second with a zero at position [k]. *)
Lemma outcomes_zero_at (l : list str) (t : trace) (k : nat) (isbn : str) :
  l !! k = Some isbn →
  (∀ (i : nat) (isbn' : str), l !! i = Some isbn' → i ≠ k →
     server1 (t ++ urls_of l i) (url ++ isbn')
     = server2 (t ++ urls_of l i) (url ++ isbn')) →
  item_outcome server1 (t ++ urls_of l k) isbn = Ok 0 →
  (∃ n, item_outcome server2 (t ++ urls_of l k) isbn = Ok n) →
  outcomes server1 l t
  = (<[k:=0]> <$> (outcomes server2 l t).1, (outcomes server2 l t).2).
Proof.
  revert t k. induction l as [|isbn0 rest IH]; intros t k Hk Hsame H1 [n H2];
    [done|].
  cbn [outcomes]. destruct k as [|k]; cbn in Hk.
  - simplify_eq. rewrite urls_of_zero in H1, H2. rewrite H1, H2.
    rewrite outcomes_ext.
    + by destruct (outcomes server2 rest (t ++ [url ++ isbn])) as [[ns|e] t'].
    + intros i isbn' Hi. rewrite <- urls_of_succ. by apply (Hsame (S i)).
  - rewrite (item_outcome_ext t isbn0).
    2:{ specialize (Hsame 0%nat isbn0 eq_refl). rewrite urls_of_zero in Hsame.
        by apply Hsame. }
    destruct (item_outcome server2 t isbn0) as [n0|e]; [|done].
    rewrite (IH (t ++ [url ++ isbn0]) k); [|done| | |].
    + by destruct (outcomes server2 rest (t ++ [url ++ isbn0])) as [[ns|e] t'].
    + intros i isbn' Hi Hne. rewrite <- urls_of_succ.
      apply (Hsame (S i)); [done|lia].
    + by rewrite <- urls_of_succ.
    + exists n. by rewrite <- urls_of_succ.
Qed.

End TwoServers.

(** ** Splitting and stripping *)

Lemma length_split_from (tok s : str) :
  length (split_from tok s)
  = match tok with
    | [] => token_starts true s
    | _ => S (token_starts false s)
    end.
Proof.
  revert tok. induction s as [|c s IH]; intros tok; cbn.
  - by destruct tok.
  - destruct (isspace c).
    + destruct tok; cbn; by rewrite IH.
    + rewrite IH. by destruct tok.
Qed.

(** The tokens of [split] are as many as the places where a token
    starts. *)
Lemma length_split (s : str) : length (split s) = whitespace_token_count s.
Proof. apply length_split_from. Qed.

(** Every token is a non-empty run without whitespace. *)
Lemma split_from_tokens (tok s : str) :
  Forall (λ c, ¬ isspace c) tok →
  Forall (λ w, w ≠ [] ∧ Forall (λ c, ¬ isspace c) w) (split_from tok s).
Proof.
  revert tok. induction s as [|c s IH]; intros tok Htok; cbn.
  - destruct tok; constructor; [done|constructor].
  - destruct (isspace c) eqn:Hc.
    + destruct tok; [apply IH; constructor|].
      constructor; [done|]. apply IH; constructor.
    + apply IH. apply Forall_app. split; [done|].
      repeat constructor. by apply Is_true_false_2.
Qed.

(** The tokens, put together, are the string without its whitespace. *)
Lemma concat_split_from (tok s : str) :
  concat (split_from tok s) = tok ++ filter (λ c, ¬ isspace c) s.
Proof.
  revert tok. induction s as [|c s IH]; intros tok.
  - destruct tok; cbn; by rewrite ?app_nil_r.
  - rewrite filter_cons. cbn [split_from]. destruct (isspace c) eqn:Hc.
    + rewrite decide_False; [|by intros H; apply H].
      destruct tok; cbn; by rewrite IH.
    + rewrite decide_True; [|by intros H]. rewrite IH. by rewrite <- app_assoc.
Qed.

Lemma lstrip_spec (s : str) :
  ∃ pre, s = pre ++ lstrip s ∧ Forall (λ c, isspace c) pre ∧
         ∀ c, head (lstrip s) = Some c → ¬ isspace c.
Proof.
  induction s as [|c s (pre & Hs & Hpre & Hhead)]; cbn.
  - exists []. repeat split; [constructor|done].
  - destruct (isspace c) eqn:Hc.
    + exists (c :: pre). cbn. rewrite <- Hs. repeat split; [|done].
      constructor; [by apply Is_true_true_2|done].
    + exists []. repeat split; [constructor|]. cbn. intros c' [= <-].
      by apply Is_true_false_2.
Qed.

Lemma rstrip_spec (s : str) :
  ∃ post, s = rstrip s ++ post ∧ Forall (λ c, isspace c) post ∧
          ∀ c, last (rstrip s) = Some c → ¬ isspace c.
Proof.
  unfold rstrip. destruct (lstrip_spec (reverse s)) as (pre & Hs & Hpre & Hhead).
  exists (reverse pre). repeat split.
  - rewrite <- reverse_app, <- Hs. by rewrite reverse_involutive.
  - by apply Forall_reverse.
  - intros c. rewrite last_reverse. apply Hhead.
Qed.

Lemma strip_spec (s : str) : stripped_of s (strip s).
Proof.
  unfold strip.
  destruct (lstrip_spec s) as (pre & Hs & Hpre & Hhead).
  destruct (rstrip_spec (lstrip s)) as (post & Hl & Hpost & Hlast).
  exists pre, post. repeat split; try done.
  - by rewrite <- Hl.
  - intros c Hc. apply Hhead. rewrite Hl.
    destruct (rstrip (lstrip s)); [done|]. by simplify_eq/=.
Qed.

(** ** Lines *)

Lemma concat_lines_from (cur s : str) : concat (lines_from cur s) = cur ++ s.
Proof.
  revert cur. induction s as [|c s IH]; intros cur; cbn.
  - destruct cur; cbn; by rewrite ?app_nil_r.
  - destruct (c =? 10)%N; cbn; rewrite IH; by rewrite <- ?app_assoc.
Qed.

Lemma lines_from_are_lines (cur s : str) :
  10%N ∉ cur → Forall is_line (lines_from cur s).
Proof.
  revert cur. induction s as [|c s IH]; intros cur Hcur; cbn.
  - destruct cur as [|c cur]; [constructor|].
    repeat constructor; [done|]. exists (c :: cur). auto.
  - destruct (N.eqb_spec c 10) as [->|Hc].
    + constructor; [|apply IH, not_elem_of_nil].
      split; [by destruct cur|]. exists cur. auto.
    + apply IH. rewrite not_elem_of_app, list_elem_of_singleton. auto.
Qed.

(** Every line but the last ends with its newline. *)
Lemma lines_from_end (cur s : str) (i : nat) (line : str) :
  lines_from cur s !! i = Some line →
  (S i < length (lines_from cur s))%nat →
  last line = Some 10%N.
Proof.
  revert cur i. induction s as [|c s IH]; intros cur i; cbn.
  - destruct cur; cbn; [done|]. destruct i; cbn; [lia|done].
  - destruct (N.eqb_spec c 10) as [->|Hc]; [|apply IH].
    destruct i as [|i]; cbn.
    + intros [= <-] _. apply last_snoc.
    + intros Hi Hlen. apply (IH [] i); [done|lia].
Qed.

Lemma snoc_view {A} (l : list A) : l = [] ∨ ∃ l' x, l = l' ++ [x].
Proof. induction l using rev_ind; eauto. Qed.

(** A line stripped has lost its newline. *)
Lemma stripped_line_no_newline (line id : str) :
  is_line line → stripped_of line id → 10%N ∉ id.
Proof.
  intros [_ (b & Hb & Hline)] (pre & post & Heq & _ & _ & _ & Hlast) Hin.
  apply list_elem_of_split in Hin as (l1 & l2 & ->).
  destruct (snoc_view (l2 ++ post)) as [Hnil|(r & y & Hr)].
  - apply app_eq_nil in Hnil as [-> ->].
    apply (Hlast 10%N); [apply last_snoc|done].
  - assert (line = (pre ++ l1 ++ 10%N :: r) ++ [y]) as Hline'.
    { rewrite Heq, <- !app_assoc. cbn. by rewrite Hr. }
    assert (10%N ∈ pre ++ l1 ++ 10%N :: r) as Hmid.
    { rewrite !elem_of_app, elem_of_cons. auto. }
    destruct Hline as [Hline|Hline]; rewrite Hline in Hline'.
    + apply app_inj_tail in Hline' as [-> _]. done.
    + apply Hb. rewrite Hline'. rewrite elem_of_app. auto.
Qed.

(** ** Ranges and slices *)

Lemma range_length_spec (n step : Z) :
  0 ≤ n → 0 < step →
  0 ≤ range_length 0 n step ∧
  n ≤ range_length 0 n step * step ∧
  (0 < n → (range_length 0 n step - 1) * step < n) ∧
  (n = 0 → range_length 0 n step = 0).
Proof.
  intros Hn Hstep. unfold range_length.
  destruct (Z.ltb_spec 0 n) as [Hpos|Hle]; [|lia].
  replace (n - 1 - 0) with (n - 1) by lia.
  pose proof (Z.div_mod (n - 1) step) as Hdiv.
  pose proof (Z.mod_pos_bound (n - 1) step Hstep) as Hmod.
  pose proof (Z.div_pos (n - 1) step) as Hq.
  nia.
Qed.

(** A slice that starts inside or after the list and runs for [n]
    elements takes what is there. *)
Lemma slice_take_drop {A} (l : list A) (i n : Z) :
  0 ≤ i → 0 ≤ n →
  slice l i (i + n) = take (Z.to_nat n) (drop (Z.to_nat i) l).
Proof.
  intros Hi Hn. unfold slice, slice_bound, len.
  destruct (Z.ltb_spec i 0) as [?|_]; [lia|].
  destruct (Z.ltb_spec (i + n) 0) as [?|_]; [lia|].
  destruct (Z.le_gt_cases (i + n) (Z.of_nat (length l))) as [Hin|Hout].
  - rewrite !Z.min_l by lia. f_equal. lia.
  - rewrite (Z.min_r (i + n)) by lia.
    destruct (Z.le_gt_cases i (Z.of_nat (length l))) as [Hle|Hgt].
    + rewrite Z.min_l by lia.
      rewrite !take_ge; [done| |]; rewrite length_drop; lia.
    + rewrite Z.min_r by lia. rewrite Z.sub_diag. cbn.
      rewrite take_0, drop_ge by lia. by rewrite take_nil.
Qed.

(** Cutting a list at every multiple of [n] and gluing the pieces gives
    the list back, when the cuts reach its end. *)
Lemma concat_chunks {A} (l : list A) (n c : nat) :
  (length l ≤ c * n)%nat →
  concat ((λ k : nat, take n (drop (k * n) l)) <$> seq 0 c) = l.
Proof.
  revert l. induction c as [|c IH]; intros l Hlen.
  - destruct l; [done|cbn in Hlen; lia].
  - cbn [seq fmap list_fmap concat]. rewrite <- fmap_S_seq, <- list_fmap_compose.
    rewrite (list_fmap_ext _ (λ k : nat, take n (drop (k * n) (drop n l)))).
    + rewrite IH; [apply take_drop|]. rewrite length_drop. lia.
    + intros _ k _. cbn. by rewrite drop_drop.
Qed.

Lemma chunk_length {A} (l : list A) (n c k : nat) :
  (0 < n)%nat →
  (length l ≤ c * n)%nat → ((c - 1) * n < length l)%nat → (k < c)%nat →
  (1 ≤ length (take n (drop (k * n) l)) ≤ n)%nat ∧
  (S k < c → length (take n (drop (k * n) l)) = n)%nat.
Proof.
  intros Hn Hup Hlow Hk. rewrite length_take, length_drop. split; [nia|].
  intros Hk'. nia.
Qed.

(** ** Word counts *)

Lemma word_count_Ok (data : json) (n : Z) :
  word_count data = Ok n ↔ is_word_count data n.
Proof.
  unfold word_count, is_word_count.
  destruct (description_of data) as [description|e].
  - destruct description as [| | | |s| |]; cbn;
      try (split; [done|intros [(s' & [=] & _)|[[=] _]]]).
    unfold len. rewrite length_split. split.
    + intros [= <-]. left. by exists s.
    + by intros [(s' & [= <-] & ->)|[[=] _]].
  - destruct e; try (split; [done|intros [(s' & [=] & _)|[[=] _]]]).
    split.
    + intros [= <-]. by right.
    + by intros [(s' & [=] & _)|[_ ->]].
Qed.

Lemma item_outcome_Ok (server : trace → str → http_outcome)
    (t : trace) (isbn : str) (n : Z) :
  item_outcome server t isbn = Ok n ↔
  ∃ data, server t (url ++ isbn) = Answer (Response (Some data)) ∧
          is_word_count data n.
Proof.
  unfold item_outcome.
  destruct (server t (url ++ isbn)) as [|[[data|]]]; cbn.
  - split; [done|by intros (data & [=] & _)].
  - rewrite word_count_Ok. split.
    + intros Hn. by exists data.
    + by intros (data' & [= <-] & Hn).
  - split; [done|by intros (data & [=] & _)].
Qed.

(** The fallback catches only [KeyError]: any other exception of the
    lookup is the outcome for the ISBN. *)
Lemma item_outcome_uncaught (server : trace → str → http_outcome)
    (t : trace) (isbn : str) (data : json) (e : exn) :
  server t (url ++ isbn) = Answer (Response (Some data)) →
  description_of data = Raise e → e ≠ KeyError →
  item_outcome server t isbn = Raise e.
Proof.
  intros Hanswer Hlookup He. unfold item_outcome, word_count.
  rewrite Hanswer. cbn [body]. rewrite Hlookup. by destruct e.
Qed.

Lemma assigned_url (f : str → http_outcome) (t : trace) (isbn : str) :
  assigned f t (url ++ isbn) = f isbn.
Proof. unfold assigned. by rewrite drop_app_length. Qed.

Lemma getitem_int_list_0 (l : list json) :
  getitem_int (JList l) 0
  = match l with [] => Raise IndexError | x :: _ => Ok x end.
Proof. by destruct l. Qed.

Lemma getitem_int_str_0 (s : str) :
  getitem_int (JStr s) 0
  = match s with [] => Raise IndexError | c :: _ => Ok (JStr [c]) end.
Proof. by destruct s. Qed.

(** Where the lookup of the description finds something. *)
Lemma description_of_Ok (data v : json) :
  description_of data = Ok v ↔
  ∃ (d : gmap str json) (item : gmap str json) (others : list json)
    (volumeInfo : gmap str json),
    data = JDict d ∧
    d !! lit "items" = Some (JList (JDict item :: others)) ∧
    item !! lit "volumeInfo" = Some (JDict volumeInfo) ∧
    volumeInfo !! lit "description" = Some v.
Proof.
  unfold description_of. split.
  - destruct data as [| | | | |?|d]; try done. cbn [getitem_str].
    destruct (d !! lit "items") as [items|] eqn:Hitems; [|done].
    cbn [mbind result_bind].
    destruct items as [| | | |s|[|item0 others]|?]; try done.
    + rewrite getitem_int_str_0. by destruct s.
    + rewrite getitem_int_list_0. cbn [mbind result_bind].
      destruct item0 as [| | | | |?|item]; try done. cbn [getitem_str].
      destruct (item !! lit "volumeInfo") as [vi|] eqn:Hvi; [|done].
      cbn [mbind result_bind].
      destruct vi as [| | | | |?|volumeInfo]; try done. cbn [getitem_str].
      destruct (volumeInfo !! lit "description") eqn:Hdesc; [|done].
      intros [= <-]. by exists d, item, others, volumeInfo.
  - intros (d & item & others & volumeInfo & -> & Hitems & Hvi & Hdesc).
    cbn [getitem_str]. rewrite Hitems. cbn [mbind result_bind].
    rewrite getitem_int_list_0. cbn [mbind result_bind getitem_str].
    rewrite Hvi. cbn [mbind result_bind getitem_str]. by rewrite Hdesc.
Qed.

(** A [dict] whose ['items'] is an empty list: the lookup raises
    [IndexError]. *)
Lemma description_of_empty_items (d : gmap str json) :
  d !! lit "items" = Some (JList []) →
  description_of (JDict d) = Raise IndexError.
Proof. intros Hitems. unfold description_of. cbn. by rewrite Hitems. Qed.

(** ** Batches *)

Lemma isbn_batches_chunks {A} (l : list A) (n : Z) :
  0 < n →
  isbn_batches l n
  = Ok ((λ k : nat, take (Z.to_nat n) (drop (k * Z.to_nat n) l))
          <$> seq 0 (Z.to_nat (range_length 0 (len l) n))).
Proof.
  intros Hn. unfold isbn_batches, range.
  destruct (Z.eqb_spec n 0) as [?|_]; [lia|].
  destruct (Z.ltb_spec 0 n) as [_|?]; [|lia].
  cbn. f_equal. rewrite <- list_fmap_compose. apply list_fmap_ext.
  intros _ k _. cbn. rewrite slice_take_drop by lia.
  do 2 f_equal. rewrite Z.add_0_l, Z2Nat.inj_mul, Nat2Z.id by lia. done.
Qed.

(** * The claims *)

(** ** C1: the count for one ISBN *)

(** C1, as stated, does not hold: there is a well-formed response for
    which looking up [data['items'][0]['volumeInfo']['description']] fails
    and [get_desc_wc_parallel] does not return zero. With the response
    [{'items': []}] the lookup raises [IndexError], which the
    [except KeyError] clause lets through, and so does the call. *)
Lemma get_desc_wc_parallel_not_zero_on_every_failure :
  description_of empty_items = Raise IndexError ∧
  get_desc_wc_parallel (always empty_items) (lit "0435910108") []
  = (Raise IndexError, [url ++ lit "0435910108"]) ∧
  ¬ (∀ (server : trace → str → http_outcome) (isbn : str) (t : trace)
       (data : json),
       server t (url ++ isbn) = Answer (Response (Some data)) →
       (∀ v, description_of data ≠ Ok v) →
       (get_desc_wc_parallel server isbn t).1 = Ok 0).
Proof.
  assert (description_of empty_items = Raise IndexError) as Hlookup
    by (by apply description_of_empty_items).
  assert (get_desc_wc_parallel (always empty_items) (lit "0435910108") []
          = (Raise IndexError, [url ++ lit "0435910108"])) as Hraise
    by (vm_compute; reflexivity).
  split; [done|]. split; [done|]. intros Hclaim.
  specialize (Hclaim (always empty_items) (lit "0435910108") [] empty_items
                eq_refl).
  rewrite Hraise in Hclaim.
  enough (Raise IndexError = Ok 0 :> result Z) by done.
  apply Hclaim. intros v. by rewrite Hlookup.
Qed.

(** C1, amended: for every ISBN, when the response to the GET request is
    JSON and [data['items'][0]['volumeInfo']['description']] is a string,
    [get_desc_wc_parallel] returns the number of whitespace-separated
    tokens of that string; and when that lookup raises [KeyError], it
    returns zero. In both cases it has sent one request. *)
Theorem get_desc_wc_parallel_word_count
    (server : trace → str → http_outcome) (isbn : str) (t : trace) (data : json) :
  server t (url ++ isbn) = Answer (Response (Some data)) →
  (∀ s, description_of data = Ok (JStr s) →
     get_desc_wc_parallel server isbn t
     = (Ok (Z.of_nat (whitespace_token_count s)), t ++ [url ++ isbn])) ∧
  (description_of data = Raise KeyError →
     get_desc_wc_parallel server isbn t = (Ok 0, t ++ [url ++ isbn])).
Proof.
  intros Hanswer. rewrite get_desc_wc_parallel_outcome. split.
  - intros s Hs. f_equal. apply item_outcome_Ok. exists data.
    split; [done|]. left. by exists s.
  - intros Hmissing. f_equal. apply item_outcome_Ok. exists data.
    split; [done|]. by right.
Qed.

(** A description of five words, with two blanks in a row, and a
    response without ['items']. *)
Lemma get_desc_wc_parallel_word_count_witness :
  get_desc_wc_parallel (always (book "An anthology of  fifty-five essays"))
    (lit "0618155872") []
  = (Ok 5, [url ++ lit "0618155872"]) ∧
  get_desc_wc_parallel (always no_items) (lit "0618155872") []
  = (Ok 0, [url ++ lit "0618155872"]).
Proof.
  split.
  - apply (proj1 (get_desc_wc_parallel_word_count
                    (always (book "An anthology of  fifty-five essays"))
                    (lit "0618155872") []
                    (book "An anthology of  fifty-five essays") eq_refl)
             (lit "An anthology of  fifty-five essays")).
    vm_compute. reflexivity.
  - apply (proj2 (get_desc_wc_parallel_word_count
                    (always no_items) (lit "0618155872") [] no_items eq_refl)).
    vm_compute. reflexivity.
Defined.

(** ** C2: a missing description *)

(** C2, as stated, does not hold: a response may miss the description
    without the lookup raising [KeyError]. With the response
    [{'items': []}] for the first of two ISBNs, and a description for the
    second, no count is recorded and the second ISBN is never asked for:
    the call raises [IndexError]. *)
Lemma get_desc_wc_missing_description_may_raise :
  description_of empty_items = Raise IndexError ∧
  get_desc_wc
    (scripted [Answer (Response (Some empty_items));
               Answer (Response (Some (book "A novel")))])
    [lit "0435910108"; lit "0618155872"] []
  = (Raise IndexError, [url ++ lit "0435910108"]) ∧
  ¬ (∀ (server : trace → str → http_outcome) (l : list str) (t : trace)
       (i : nat) (isbn : str) (data : json),
       l !! i = Some isbn →
       server (t ++ urls_of l i) (url ++ isbn) = Answer (Response (Some data)) →
       (∀ v, description_of data ≠ Ok v) →
       (∀ (j : nat) (isbn' : str), j ≠ i → l !! j = Some isbn' →
          ∃ data' s,
            server (t ++ urls_of l j) (url ++ isbn')
            = Answer (Response (Some data')) ∧
            description_of data' = Ok (JStr s)) →
       ∃ wcs, (get_desc_wc server l t).1 = Ok wcs ∧ wcs !! i = Some 0).
Proof.
  pose (server := scripted [Answer (Response (Some empty_items));
                            Answer (Response (Some (book "A novel")))]).
  pose (l := [lit "0435910108"; lit "0618155872"]).
  assert (description_of empty_items = Raise IndexError) as Hlookup
    by (by apply description_of_empty_items).
  assert (get_desc_wc server l [] = (Raise IndexError, [url ++ lit "0435910108"]))
    as Hraise by (vm_compute; reflexivity).
  split; [done|]. split; [done|]. intros Hclaim.
  destruct (Hclaim server l [] 0%nat (lit "0435910108") empty_items)
    as (wcs & Hwcs & _).
  - done.
  - done.
  - intros v. by rewrite Hlookup.
  - intros [|[|j]] isbn' Hj Hl; [done| |done].
    exists (book "A novel"), (lit "A novel"). split; [done|].
    vm_compute. reflexivity.
  - by rewrite Hraise in Hwcs.
Qed.

(** C2, amended: for every input list of ISBNs processed by
    [get_desc_wc], if the lookup of the description in the response for
    some ISBN raises [KeyError], the word count recorded for that ISBN is
    zero and processing continues: the outcome is the one there would be
    had that response contained the description, with a zero at that
    position, and the same requests are sent. *)
Theorem get_desc_wc_missing_key_counts_zero
    (server1 server2 : trace → str → http_outcome) (l : list str) (t : trace)
    (k : nat) (isbn : str) (missing present : json) (s : str) :
  l !! k = Some isbn →
  server1 (t ++ urls_of l k) (url ++ isbn) = Answer (Response (Some missing)) →
  description_of missing = Raise KeyError →
  server2 (t ++ urls_of l k) (url ++ isbn) = Answer (Response (Some present)) →
  description_of present = Ok (JStr s) →
  (∀ (i : nat) (isbn' : str), l !! i = Some isbn' → i ≠ k →
     server1 (t ++ urls_of l i) (url ++ isbn')
     = server2 (t ++ urls_of l i) (url ++ isbn')) →
  get_desc_wc server1 l t
  = (<[k:=0]> <$> (get_desc_wc server2 l t).1, (get_desc_wc server2 l t).2) ∧
  ∀ wcs, (get_desc_wc server1 l t).1 = Ok wcs → wcs !! k = Some 0.
Proof.
  intros Hk Hmissing Hkey Hpresent Hstr Hsame.
  assert (item_outcome server1 (t ++ urls_of l k) isbn = Ok 0) as H1.
  { apply item_outcome_Ok. exists missing. split; [done|]. by right. }
  assert (∃ n, item_outcome server2 (t ++ urls_of l k) isbn = Ok n) as H2.
  { eexists. apply item_outcome_Ok. exists present. split; [done|].
    left. by exists s. }
  rewrite !get_desc_wc_outcomes. split.
  - by apply (outcomes_zero_at server1 server2 l t k isbn).
  - intros wcs Hwcs. apply outcomes_Ok in Hwcs as [_ Hpos].
    destruct (Hpos k isbn Hk) as (n & Hn & Hout). congruence.
Qed.

(** Three ISBNs, the second of which has a [volumeInfo] without
    ['description'] where the other server has three words. *)
Lemma get_desc_wc_missing_key_counts_zero_witness :
  get_desc_wc
    (scripted [Answer (Response (Some (book "A novel")));
               Answer (Response (Some book_without_description));
               Answer (Response (Some (book "Fifty-five essays, in one volume")))])
    [lit "0435910108"; lit "0618155872"; lit "0140283331"] []
  = (Ok [2; 0; 5],
     [url ++ lit "0435910108"; url ++ lit "0618155872"; url ++ lit "0140283331"]).
Proof.
  pose proof (get_desc_wc_missing_key_counts_zero
    (scripted [Answer (Response (Some (book "A novel")));
               Answer (Response (Some book_without_description));
               Answer (Response (Some (book "Fifty-five essays, in one volume")))])
    (scripted [Answer (Response (Some (book "A novel")));
               Answer (Response (Some (book "Three short words")));
               Answer (Response (Some (book "Fifty-five essays, in one volume")))])
    [lit "0435910108"; lit "0618155872"; lit "0140283331"] [] 1%nat
    (lit "0618155872") book_without_description (book "Three short words")
    (lit "Three short words")) as Hzero.
  destruct Hzero as [Hrun _].
  - reflexivity.
  - reflexivity.
  - vm_compute. reflexivity.
  - reflexivity.
  - vm_compute. reflexivity.
  - intros [|[|[|i]]] isbn' Hi Hne; [reflexivity|done|reflexivity|done].
  - rewrite Hrun. vm_compute. reflexivity.
Defined.

(** ** C3: one count per ISBN, in order *)

(** C3, as stated, does not hold: [get_desc_wc] does not return a list for
    every input. For a one-element list whose response is [{'items': []}]
    it raises [IndexError] and returns nothing. *)
Lemma get_desc_wc_may_return_no_list :
  get_desc_wc (always empty_items) [lit "0435910108"] []
  = (Raise IndexError, [url ++ lit "0435910108"]) ∧
  ¬ (∀ (server : trace → str → http_outcome) (l : list str) (t : trace),
       ∃ wcs, (get_desc_wc server l t).1 = Ok wcs ∧ length wcs = length l).
Proof.
  assert (get_desc_wc (always empty_items) [lit "0435910108"] []
          = (Raise IndexError, [url ++ lit "0435910108"])) as Hraise
    by (vm_compute; reflexivity).
  split; [done|]. intros Hclaim.
  destruct (Hclaim (always empty_items) [lit "0435910108"] []) as (wcs & Hwcs & _).
  by rewrite Hraise in Hwcs.
Qed.

(** C3, amended: for every input list of ISBNs, [get_desc_wc] returns a
    list exactly when the response for every ISBN of the list is JSON in
    which the lookup of the description finds a string or raises
    [KeyError]; the list returned has exactly the length of the input, and
    for every position [i] its [i]-th element is the word count derived
    from the response for the [i]-th ISBN (the number of tokens of the
    description, or zero). For the empty input list the result is the
    empty list. *)
Theorem get_desc_wc_positional
    (server : trace → str → http_outcome) (l : list str) (t : trace)
    (wcs : list Z) :
  ((get_desc_wc server l t).1 = Ok wcs ↔
   length wcs = length l ∧
   ∀ (i : nat) (isbn : str), l !! i = Some isbn →
     ∃ data n,
       server (t ++ urls_of l i) (url ++ isbn) = Answer (Response (Some data)) ∧
       is_word_count data n ∧ wcs !! i = Some n) ∧
  get_desc_wc server [] t = (Ok [], t).
Proof.
  split; [|done].
  rewrite get_desc_wc_outcomes, outcomes_Ok.
  split; intros [Hlen Hpos]; (split; [done|]); intros i isbn Hi.
  - destruct (Hpos i isbn Hi) as (n & Hn & Hout).
    apply item_outcome_Ok in Hout as (data & Hdata & Hcount).
    by exists data, n.
  - destruct (Hpos i isbn Hi) as (data & n & Hdata & Hcount & Hn).
    exists n. split; [done|]. apply item_outcome_Ok. by exists data.
Qed.

(** Two ISBNs: a description of five words, then no ['items']. *)
Lemma get_desc_wc_positional_witness :
  length [5; 0] = length [lit "0618155872"; lit "0435910108"] ∧
  ∀ (i : nat) (isbn : str),
    [lit "0618155872"; lit "0435910108"] !! i = Some isbn →
    ∃ data n,
      scripted [Answer (Response (Some (book "An anthology of  fifty-five essays")));
                Answer (Response (Some no_items))]
        ([] ++ urls_of [lit "0618155872"; lit "0435910108"] i) (url ++ isbn)
      = Answer (Response (Some data)) ∧
      is_word_count data n ∧ [5; 0] !! i = Some n.
Proof.
  apply (proj1 (proj1 (get_desc_wc_positional
    (scripted [Answer (Response (Some (book "An anthology of  fifty-five essays")));
               Answer (Response (Some no_items))])
    [lit "0618155872"; lit "0435910108"] [] [5; 0]))).
  vm_compute. reflexivity.
Defined.

(** ** C4: the list function and the single-item function *)

(** C4: for every list of ISBNs and every fixed assignment of HTTP
    responses to ISBNs, [get_desc_wc] applied to the list gives what
    mapping [get_desc_wc_parallel] over the list, element by element,
    gives: the same list of word counts, or the same exception, after the
    same requests; and it returns a list exactly when each call of
    [get_desc_wc_parallel] on its own returns the element at its
    position. *)
Theorem get_desc_wc_is_map_of_parallel
    (f : str → http_outcome) (l : list str) (t : trace) :
  get_desc_wc (assigned f) l t
  = comprehension (get_desc_wc_parallel (assigned f)) l t ∧
  ∀ wcs : list Z,
    (get_desc_wc (assigned f) l t).1 = Ok wcs ↔
    Forall2 (λ isbn n,
               ∀ t', (get_desc_wc_parallel (assigned f) isbn t').1 = Ok n)
            l wcs.
Proof.
  split; [by rewrite get_desc_wc_outcomes, comprehension_outcomes|].
  intros wcs.
  rewrite get_desc_wc_outcomes, outcomes_Ok, Forall2_same_length_lookup.
  split; intros [Hlen Hpos]; (split; [done|]).
  - intros i isbn n Hi Hn t'. rewrite get_desc_wc_parallel_outcome.
    destruct (Hpos i isbn Hi) as (n' & Hn' & Hout). simplify_eq.
    by rewrite <- Hout.
  - intros i isbn Hi.
    destruct (lookup_lt_is_Some_2 wcs i) as [n Hn].
    { rewrite <- Hlen. by eapply lookup_lt_Some. }
    exists n. split; [done|].
    specialize (Hpos i isbn n Hi Hn (t ++ urls_of l i)).
    by rewrite get_desc_wc_parallel_outcome in Hpos.
Qed.

(** With a description of two words for one ISBN and no item for the
    other, the two calls on their own give 2 and 0, and so does the
    list function. *)
Lemma get_desc_wc_is_map_of_parallel_witness :
  (get_desc_wc
     (assigned (λ isbn, if decide (isbn = lit "0435910108")
                        then Answer (Response (Some (book "A novel")))
                        else Answer (Response (Some no_items))))
     [lit "0435910108"; lit "0618155872"] []).1
  = Ok [2; 0].
Proof.
  apply (proj2 (get_desc_wc_is_map_of_parallel
    (λ isbn, if decide (isbn = lit "0435910108")
             then Answer (Response (Some (book "A novel")))
             else Answer (Response (Some no_items)))
    [lit "0435910108"; lit "0618155872"] [])).
  repeat constructor; intros t'; rewrite get_desc_wc_parallel_outcome;
    vm_compute; reflexivity.
Defined.

(** ** C5: the URL of a request *)

(** C5: for every identifier processed by [get_desc_wc] or
    [get_desc_wc_parallel], the URL passed to the GET request is the fixed
    prefix ["https://www.googleapis.com/books/v1/volumes?q=isbn:"]
    followed by that identifier. The single-item function sends exactly
    that one URL. The list function processes the first [k] identifiers
    of the list, all of them when it returns and at least one when it
    raises, and the requests it sends are exactly one per identifier
    processed, in order: the request at position [i] goes to the prefix
    followed by the [i]-th identifier. *)
Theorem requests_go_to_prefix_plus_isbn
    (server : trace → str → http_outcome) (t : trace) :
  (∀ isbn : str,
     (get_desc_wc_parallel server isbn t).2
     = t ++ [lit "https://www.googleapis.com/books/v1/volumes?q=isbn:" ++ isbn]) ∧
  (∀ l : list str, ∃ k : nat,
     (k ≤ length l)%nat ∧
     match (get_desc_wc server l t).1 with
     | Ok _ => k = length l
     | Raise _ => (0 < k)%nat
     end ∧
     (get_desc_wc server l t).2
     = t ++ ((λ isbn, lit "https://www.googleapis.com/books/v1/volumes?q=isbn:"
                      ++ isbn) <$> take k l) ∧
     length (get_desc_wc server l t).2 = (length t + k)%nat ∧
     ∀ (i : nat) (isbn : str), (i < k)%nat → l !! i = Some isbn →
       (get_desc_wc server l t).2 !! (length t + i)%nat
       = Some (lit "https://www.googleapis.com/books/v1/volumes?q=isbn:" ++ isbn)).
Proof.
  split.
  - intros isbn. by rewrite get_desc_wc_parallel_outcome.
  - intros l. rewrite get_desc_wc_outcomes.
    destruct (outcomes_trace server l t) as (k & Hk & Htrace & Hend).
    exists k. split; [done|]. split.
    { destruct (outcomes server l t).1 as [wcs|e]; [done|].
      destruct Hend as (j & _ & -> & _). lia. }
    unfold urls_of in Htrace. split; [done|]. rewrite Htrace. split.
    + rewrite length_app, length_fmap, length_take. lia.
    + intros i isbn Hi Hisbn. rewrite lookup_app_r by lia.
      replace (length t + i - length t)%nat with i by lia.
      rewrite list_lookup_fmap, lookup_take_lt by done. by rewrite Hisbn.
Qed.

(** Two ISBNs with a description each: two requests, the second one to
    the prefix followed by the second ISBN. *)
Lemma requests_go_to_prefix_plus_isbn_witness :
  (get_desc_wc (always (book "A novel"))
     [lit "0435910108"; lit "0618155872"] []).2
  = [lit "https://www.googleapis.com/books/v1/volumes?q=isbn:" ++ lit "0435910108";
     lit "https://www.googleapis.com/books/v1/volumes?q=isbn:" ++ lit "0618155872"].
Proof.
  destruct (proj2 (requests_go_to_prefix_plus_isbn (always (book "A novel")) [])
              [lit "0435910108"; lit "0618155872"])
    as (k & _ & Hend & Htrace & _).
  assert ((get_desc_wc (always (book "A novel"))
             [lit "0435910108"; lit "0618155872"] []).1 = Ok [2; 2]) as Hrun
    by (vm_compute; reflexivity).
  rewrite Hrun in Hend. subst k. exact Htrace.
Defined.

(** ** C6: one request per ISBN *)

(** C6, as stated, does not hold: the content of a response can end the
    call before every ISBN has had its request. With [{'items': []}] as
    the first response, the second ISBN of a list of two is never asked
    for. *)
Lemma get_desc_wc_may_skip_requests :
  get_desc_wc (always empty_items) [lit "0435910108"; lit "0618155872"] []
  = (Raise IndexError, [url ++ lit "0435910108"]) ∧
  ¬ (∀ (server : trace → str → http_outcome) (l : list str) (t : trace),
       (get_desc_wc server l t).2 = t ++ urls_of l (length l)).
Proof.
  assert (get_desc_wc (always empty_items)
            [lit "0435910108"; lit "0618155872"] []
          = (Raise IndexError, [url ++ lit "0435910108"])) as Hone
    by (vm_compute; reflexivity).
  split; [done|]. intros Hclaim.
  specialize (Hclaim (always empty_items) [lit "0435910108"; lit "0618155872"] []).
  rewrite Hone in Hclaim. apply (f_equal length) in Hclaim. done.
Qed.

(** C6, amended: for every input list of ISBNs and whatever the
    responses, [get_desc_wc] issues its GET requests in list order, one
    per ISBN and never a second one for the same position, for the ISBNs
    of a prefix of the list: the whole list when the call returns; and,
    when an exception ends the call, the ISBNs up to and including the
    one whose request failed or whose response gave no word count. *)
Theorem get_desc_wc_one_request_per_isbn
    (server : trace → str → http_outcome) (l : list str) (t : trace) :
  ∃ k : nat,
    (k ≤ length l)%nat ∧
    (get_desc_wc server l t).2 = t ++ urls_of l k ∧
    match (get_desc_wc server l t).1 with
    | Ok _ => k = length l
    | Raise _ =>
        ∃ (j : nat) (isbn : str),
          k = S j ∧ l !! j = Some isbn ∧
          ¬ ∃ data n,
              server (t ++ urls_of l j) (url ++ isbn)
              = Answer (Response (Some data)) ∧
              is_word_count data n
    end.
Proof.
  rewrite get_desc_wc_outcomes.
  destruct (outcomes_trace server l t) as (k & Hk & Htrace & Hend).
  exists k. split; [done|]. split; [done|].
  destruct (outcomes server l t).1 as [wcs|e]; [done|].
  destruct Hend as (j & isbn & -> & Hj & He).
  exists j, isbn. split; [done|]. split; [done|].
  intros (data & n & Hdata & Hn).
  assert (item_outcome server (t ++ urls_of l j) isbn = Ok n) as Hok
    by (apply item_outcome_Ok; by exists data).
  congruence.
Qed.

(** ** C7: one identifier per line *)

(** C7: reading the identifier file produces one identifier per line of
    the file. The lines, in order, make up the text of the file, each of
    them ending at its newline (the last one may have none); the list has
    exactly one entry for each line, in file order; and each entry is
    that line stripped of the whitespace at its two ends, the newline
    included. *)
Theorem read_isbn_list_one_per_line (content : str) :
  (concat (file_lines content) = universal_newlines content ∧
   Forall is_line (file_lines content) ∧
   ∀ (i : nat) (line : str), file_lines content !! i = Some line →
     (S i < length (file_lines content))%nat → last line = Some 10%N) ∧
  length (read_isbn_list content) = length (file_lines content) ∧
  ∀ (i : nat) (line : str), file_lines content !! i = Some line →
    read_isbn_list content !! i = Some (strip line) ∧
    stripped_of line (strip line) ∧
    10%N ∉ strip line.
Proof.
  unfold read_isbn_list, file_lines.
  pose proof (lines_from_are_lines [] (universal_newlines content)
                (not_elem_of_nil _)) as Hlines.
  split; [split; [apply concat_lines_from|split; [done|]]|].
  { intros i line. apply lines_from_end. }
  split; [apply length_fmap|]. intros i line Hi. repeat split.
  - rewrite list_lookup_fmap. by rewrite Hi.
  - apply strip_spec.
  - apply (stripped_line_no_newline line); [|apply strip_spec].
    rewrite Forall_lookup in Hlines. by apply (Hlines i).
Qed.

(** The second line of a file of three, with blanks around the ISBN and a
    Windows line ending before it. *)
Lemma read_isbn_list_one_per_line_witness :
  read_isbn_list (lit "0435910108" ++ [13; 10]%N ++ lit " 0618155872 " ++ [10]%N
                  ++ lit "0140283331")
  !! 1%nat = Some (lit "0618155872").
Proof.
  apply (proj1 (proj2 (proj2 (read_isbn_list_one_per_line
    (lit "0435910108" ++ [13; 10]%N ++ lit " 0618155872 " ++ [10]%N
     ++ lit "0140283331"))) 1%nat (lit " 0618155872 " ++ [10]%N) eq_refl)).
Defined.

(** ** C8: what the fallback does not catch *)

(** C8: the fallback of [get_desc_wc] and [get_desc_wc_parallel] catches
    only [KeyError]. For a JSON response that binds ['items'] to an empty
    list the lookup raises [IndexError], and both functions end with that
    exception instead of a zero for that ISBN: the single-item function
    when the response is the one to its request, the list function when
    it is the response for an ISBN of the list before which every ISBN
    got a count. *)
Theorem empty_items_raises_IndexError
    (server : trace → str → http_outcome) (l : list str) (t : trace)
    (k : nat) (isbn : str) (d : gmap str json) :
  d !! lit "items" = Some (JList []) →
  l !! k = Some isbn →
  server (t ++ urls_of l k) (url ++ isbn) = Answer (Response (Some (JDict d))) →
  (∀ (i : nat) (isbn' : str), (i < k)%nat → l !! i = Some isbn' →
     ∃ data n,
       server (t ++ urls_of l i) (url ++ isbn') = Answer (Response (Some data)) ∧
       is_word_count data n) →
  description_of (JDict d) = Raise IndexError ∧
  (get_desc_wc_parallel server isbn (t ++ urls_of l k)).1 = Raise IndexError ∧
  get_desc_wc server l t = (Raise IndexError, t ++ urls_of l (S k)).
Proof.
  intros Hitems Hk Hanswer Hbefore.
  pose proof (description_of_empty_items d Hitems) as Hlookup.
  assert (item_outcome server (t ++ urls_of l k) isbn = Raise IndexError) as Hout
    by by apply (item_outcome_uncaught server _ isbn (JDict d)).
  repeat split; [done| |].
  - by rewrite get_desc_wc_parallel_outcome.
  - rewrite get_desc_wc_outcomes. apply (outcomes_Raise server l t k isbn);
      [done| |done].
    intros i isbn' Hi Hl. destruct (Hbefore i isbn' Hi Hl) as (data & n & Hd & Hn).
    exists n. apply item_outcome_Ok. by exists data.
Qed.

(** The response [{'items': []}] for the second of three ISBNs. *)
Lemma empty_items_raises_IndexError_witness :
  description_of empty_items = Raise IndexError ∧
  (get_desc_wc_parallel
     (scripted [Answer (Response (Some (book "A novel")));
                Answer (Response (Some empty_items))])
     (lit "0618155872") [url ++ lit "0435910108"]).1 = Raise IndexError ∧
  get_desc_wc
    (scripted [Answer (Response (Some (book "A novel")));
               Answer (Response (Some empty_items))])
    [lit "0435910108"; lit "0618155872"; lit "0140283331"] []
  = (Raise IndexError, [url ++ lit "0435910108"; url ++ lit "0618155872"]).
Proof.
  apply (empty_items_raises_IndexError
    (scripted [Answer (Response (Some (book "A novel")));
               Answer (Response (Some empty_items))])
    [lit "0435910108"; lit "0618155872"; lit "0140283331"] [] 1%nat
    (lit "0618155872") {[ lit "items" := JList [] ]}).
  - vm_compute. reflexivity.
  - reflexivity.
  - reflexivity.
  - intros [|i] isbn' Hi Hl; [|lia].
    exists (book "A novel"), 2. split; [reflexivity|].
    left. exists (lit "A novel"). split; vm_compute; reflexivity.
Defined.

(** ** C9: batches *)

(** C9: for every input list and every batch size [n > 0], the batching
    expression [[isbn_list[i:i + n] for i in range(0, len(isbn_list), n)]]
    cuts the list into consecutive chunks whose concatenation, in order,
    is the original list, where every chunk except possibly the last has
    length exactly [n] and the last has length between 1 and [n]. *)
Theorem isbn_batches_partition {A} (isbn_list : list A) (n : Z) :
  0 < n →
  ∃ batches : list (list A),
    isbn_batches isbn_list n = Ok batches ∧
    concat batches = isbn_list ∧
    ∀ (k : nat) (batch : list A), batches !! k = Some batch →
      1 ≤ len batch ≤ n ∧
      ((S k < length batches)%nat → len batch = n).
Proof.
  intros Hn. rewrite isbn_batches_chunks by done. eexists. split; [done|].
  destruct (range_length_spec (len isbn_list) n) as (Hc0 & Hup & Hlow & Hzero);
    [unfold len; lia|done|].
  set (c := Z.to_nat (range_length 0 (len isbn_list) n)) in *.
  unfold len in *. split.
  - apply concat_chunks. nia.
  - intros k batch Hk. rewrite list_lookup_fmap in Hk.
    destruct (seq 0 c !! k) as [k'|] eqn:Hseq; [|done].
    apply lookup_seq in Hseq as [-> Hlt]. cbn in Hk. simplify_eq.
    rewrite length_fmap, length_seq.
    destruct (chunk_length isbn_list (Z.to_nat n) c k) as [Hbetween Hfull];
      [lia|nia|nia|done|].
    split; [lia|]. intros Hk'. specialize (Hfull Hk'). lia.
Qed.

(** Five elements in batches of two. *)
Lemma isbn_batches_partition_witness :
  ∃ batches : list (list Z),
    isbn_batches [1; 2; 3; 4; 5] 2 = Ok batches ∧
    concat batches = [1; 2; 3; 4; 5] ∧
    ∀ (k : nat) (batch : list Z), batches !! k = Some batch →
      1 ≤ len batch ≤ 2 ∧
      ((S k < length batches)%nat → len batch = 2).
Proof. apply (isbn_batches_partition [1; 2; 3; 4; 5] 2). lia. Defined.

(** ** C10: counts are not negative *)

(** C10: for every input list of ISBNs and every assignment of responses
    under which [get_desc_wc] terminates normally, every element of the
    returned list is a nonnegative integer: it is either the zero of the
    fallback branch or the length of the list produced by splitting a
    string on whitespace. *)
Theorem get_desc_wc_counts_nonnegative
    (server : trace → str → http_outcome) (l : list str) (t t' : trace)
    (wcs : list Z) :
  get_desc_wc server l t = (Ok wcs, t') →
  Forall (λ n, 0 ≤ n ∧ (n = 0 ∨ ∃ s : str, n = len (split s))) wcs.
Proof.
  intros Hrun. rewrite get_desc_wc_outcomes in Hrun.
  assert ((outcomes server l t).1 = Ok wcs) as Hwcs by by rewrite Hrun.
  apply outcomes_Ok in Hwcs as [Hlen Hpos].
  apply Forall_lookup. intros i n Hi.
  destruct (lookup_lt_is_Some_2 l i) as [isbn Hisbn].
  { rewrite <- Hlen. by eapply lookup_lt_Some. }
  destruct (Hpos i isbn Hisbn) as (n' & Hn' & Hout). simplify_eq.
  apply item_outcome_Ok in Hout as (data & _ & [(s & _ & ->)|[_ ->]]).
  - split; [lia|]. right. exists s. unfold len. by rewrite length_split.
  - split; [lia|]. by left.
Qed.

(** Two ISBNs, the second without a description. *)
Lemma get_desc_wc_counts_nonnegative_witness :
  Forall (λ n, 0 ≤ n ∧ (n = 0 ∨ ∃ s : str, n = len (split s))) [2; 0].
Proof.
  apply (get_desc_wc_counts_nonnegative
    (scripted [Answer (Response (Some (book "A novel")));
               Answer (Response (Some book_without_description))])
    [lit "0435910108"; lit "0618155872"] []
    [url ++ lit "0435910108"; url ++ lit "0618155872"] [2; 0]).
  vm_compute. reflexivity.
Defined.

(** * More of the notebook *)

(** ** The exceptions of the two functions *)

Lemma getitem_str_Raise (obj : json) (key : str) (e : exn) :
  getitem_str obj key = Raise e → e = KeyError ∨ e = TypeError.
Proof.
  destruct obj as [| | | | | |d]; cbn; try (intros [= <-]; auto).
  destruct (d !! key); [done|]. intros [= <-]. auto.
Qed.

Lemma getitem_int_0_Raise (obj : json) (e : exn) :
  getitem_int obj 0 = Raise e →
  e = KeyError ∨ e = TypeError ∨
  (e = IndexError ∧ (obj = JList [] ∨ obj = JStr [])).
Proof.
  destruct obj as [| | | |s|l|d]; try (cbn; intros [= <-]; auto).
  - rewrite getitem_int_str_0. destruct s; [|done]. intros [= <-]. auto.
  - rewrite getitem_int_list_0. destruct l; [|done]. intros [= <-]. auto.
Qed.

(** What the lookup of the description can raise, and where
    [IndexError] comes from. *)
Lemma description_of_Raise (data : json) (e : exn) :
  description_of data = Raise e →
  e = KeyError ∨ e = TypeError ∨
  (e = IndexError ∧
   ∃ d : gmap str json,
     data = JDict d ∧
     (d !! lit "items" = Some (JList []) ∨ d !! lit "items" = Some (JStr []))).
Proof.
  unfold description_of.
  destruct (getitem_str data (lit "items")) as [items|e1] eqn:H1;
    cbn [mbind result_bind].
  2:{ intros [= <-]. apply getitem_str_Raise in H1. tauto. }
  destruct (getitem_int items 0) as [item|e2] eqn:H2; cbn [mbind result_bind].
  2:{ intros [= <-]. apply getitem_int_0_Raise in H2.
      destruct H2 as [?|[?|[-> Hitems]]]; [tauto|tauto|].
      right. right. split; [done|].
      destruct data as [| | | | | |d]; try done. exists d. split; [done|].
      cbn in H1. destruct (d !! lit "items"); [|done].
      destruct Hitems as [->| ->]; simplify_eq; auto. }
  destruct (getitem_str item (lit "volumeInfo")) as [volumeInfo|e3] eqn:H3;
    cbn [mbind result_bind].
  2:{ intros [= <-]. apply getitem_str_Raise in H3. tauto. }
  intros H4. apply getitem_str_Raise in H4. tauto.
Qed.

Lemma method_split_Raise (obj : json) (e : exn) :
  method_split obj = Raise e → e = AttributeError ∧ ∀ s, obj ≠ JStr s.
Proof. destruct obj; cbn; intros [= <-]; by split. Qed.

(** The exception of the body for one ISBN, when the response is JSON:
    what the lookup raised, unless that was [KeyError], or
    [AttributeError] for a description that is not a string. *)
Lemma word_count_Raise (data : json) (e : exn) :
  word_count data = Raise e ↔
  (e ≠ KeyError ∧ description_of data = Raise e) ∨
  (e = AttributeError ∧ ∃ v, description_of data = Ok v ∧ ∀ s, v ≠ JStr s).
Proof.
  unfold word_count. destruct (description_of data) as [v|e'] eqn:Hlookup.
  - split.
    + intros He. right.
      destruct (method_split v) as [words|e'] eqn:Hsplit; [done|].
      cbn in He. simplify_eq. apply method_split_Raise in Hsplit as [-> Hv].
      split; [done|]. by exists v.
    + intros [[_ [=]]|[-> (v' & [= <-] & Hv)]].
      destruct v; try done. by destruct (Hv s).
  - split.
    + intros He. left. apply description_of_Raise in Hlookup as Hcases.
      destruct e'; simplify_eq; try done.
      all: destruct Hcases as [?|[?|[? _]]]; done.
    + intros [[Hne [= <-]]|[_ (v & [=] & _)]]. by destruct e'.
Qed.

Lemma item_outcome_not_KeyError (server : trace → str → http_outcome)
    (t : trace) (isbn : str) :
  item_outcome server t isbn ≠ Raise KeyError.
Proof.
  unfold item_outcome.
  destruct (server t (url ++ isbn)) as [|[[data|]]]; cbn; try done.
  intros [[? _]|[? _]]%word_count_Raise; done.
Qed.

(** X1. [KeyError] never leaves either function: whatever the server
    does and whatever the list, neither [get_desc_wc_parallel] nor
    [get_desc_wc] ends with it. *)
Theorem KeyError_never_escapes (server : trace → str → http_outcome) (t : trace) :
  (∀ isbn : str, (get_desc_wc_parallel server isbn t).1 ≠ Raise KeyError) ∧
  (∀ l : list str, (get_desc_wc server l t).1 ≠ Raise KeyError).
Proof.
  split.
  - intros isbn. rewrite get_desc_wc_parallel_outcome.
    apply item_outcome_not_KeyError.
  - intros l Hraise. rewrite get_desc_wc_outcomes in Hraise.
    destruct (outcomes_trace server l t) as (k & _ & _ & Hend).
    rewrite Hraise in Hend. destruct Hend as (j & isbn & _ & _ & Hout).
    by apply item_outcome_not_KeyError in Hout.
Qed.

(** X2. For a JSON response, [get_desc_wc_parallel] raises
    [AttributeError] exactly when the lookup finds a description that is
    not a string, and [IndexError] exactly when the response is an object
    whose ['items'] is an empty list or an empty string; the only other
    exception it can raise is [TypeError]. *)
Theorem get_desc_wc_parallel_exceptions
    (server : trace → str → http_outcome) (isbn : str) (t : trace) (data : json) :
  server t (url ++ isbn) = Answer (Response (Some data)) →
  ((get_desc_wc_parallel server isbn t).1 = Raise AttributeError ↔
   ∃ v, description_of data = Ok v ∧ ∀ s, v ≠ JStr s) ∧
  ((get_desc_wc_parallel server isbn t).1 = Raise IndexError ↔
   ∃ d : gmap str json,
     data = JDict d ∧
     (d !! lit "items" = Some (JList []) ∨ d !! lit "items" = Some (JStr []))) ∧
  (∀ e, (get_desc_wc_parallel server isbn t).1 = Raise e →
     e = AttributeError ∨ e = IndexError ∨ e = TypeError).
Proof.
  intros Hanswer. rewrite get_desc_wc_parallel_outcome. cbn [fst].
  unfold item_outcome. rewrite Hanswer. cbn [body].
  split; [|split].
  - rewrite word_count_Raise. split.
    + intros [[_ Hlookup]|[_ Hv]]; [|done].
      apply description_of_Raise in Hlookup as [?|[?|[? _]]]; done.
    + intros Hv. by right.
  - rewrite word_count_Raise. split.
    + intros [[_ Hlookup]|[? _]]; [|done].
      apply description_of_Raise in Hlookup as [?|[?|[_ Hd]]]; done.
    + intros (d & -> & [Hitems|Hitems]); left; (split; [done|]).
      * by apply description_of_empty_items.
      * unfold description_of. cbn. by rewrite Hitems.
  - intros e [[Hne Hlookup]|[-> _]]%word_count_Raise; [|auto].
    apply description_of_Raise in Hlookup as [?|[?|[? _]]]; auto. done.
Qed.

(** The response [{'items': [{'volumeInfo': {'description': null}}]}]:
    the description is there and is not a string. *)
Lemma get_desc_wc_parallel_exceptions_witness :
  (get_desc_wc_parallel
     (always (dict1 "items" (JList [dict1 "volumeInfo" (dict1 "description" JNone)])))
     (lit "0435910108") []).1
  = Raise AttributeError.
Proof.
  apply (proj1 (get_desc_wc_parallel_exceptions
    (always (dict1 "items" (JList [dict1 "volumeInfo" (dict1 "description" JNone)])))
    (lit "0435910108") []
    (dict1 "items" (JList [dict1 "volumeInfo" (dict1 "description" JNone)]))
    eq_refl)).
  exists JNone. split; [vm_compute; reflexivity|done].
Defined.

(** ** Lists in parts *)

Lemma outcomes_app (server : trace → str → http_outcome)
    (l1 l2 : list str) (t : trace) :
  outcomes server (l1 ++ l2) t
  = match outcomes server l1 t with
    | (Ok w1, t1) =>
        (app w1 <$> (outcomes server l2 t1).1, (outcomes server l2 t1).2)
    | (Raise e, t1) => (Raise e, t1)
    end.
Proof.
  revert t. induction l1 as [|isbn l1 IH]; intros t.
  - cbn. by destruct (outcomes server l2 t) as [[w2|e] t2].
  - cbn [app outcomes]. destruct (item_outcome server t isbn) as [n|e]; [|done].
    rewrite IH.
    destruct (outcomes server l1 (t ++ [url ++ isbn])) as [[w1|e] t1]; [|done].
    by destruct (outcomes server l2 t1) as [[w2|e] t2].
Qed.

(** With a fixed assignment a pass returns the counts that the ISBNs
    have, each on its own. *)
Lemma outcomes_assigned_Ok (f : str → http_outcome) (l : list str) (t : trace)
    (wcs : list Z) :
  (outcomes (assigned f) l t).1 = Ok wcs ↔
  Forall2 (λ isbn n, item_outcome (assigned f) [] isbn = Ok n) l wcs.
Proof.
  rewrite outcomes_Ok, Forall2_same_length_lookup. split.
  - intros [Hlen Hpos]. split; [done|]. intros i isbn n Hi Hn.
    destruct (Hpos i isbn Hi) as (n' & Hn' & Hout). by simplify_eq.
  - intros [Hlen Hpos]. split; [done|]. intros i isbn Hi.
    destruct (lookup_lt_is_Some_2 wcs i) as [n Hn].
    { rewrite <- Hlen. by eapply lookup_lt_Some. }
    exists n. split; [done|]. apply (Hpos i isbn n Hi Hn).
Qed.

Lemma Forall2_concat_inv {A B} (P : A → B → Prop) (ls : list (list A))
    (k : list B) :
  Forall2 P (concat ls) k →
  ∃ ks, concat ks = k ∧ Forall2 (Forall2 P) ls ks.
Proof.
  revert k. induction ls as [|l ls IH]; intros k; cbn.
  - intros ->%Forall2_nil_inv_l. exists []. by split.
  - intros (k1 & k2 & H1 & H2 & ->)%Forall2_app_inv_l.
    destruct (IH k2 H2) as (ks & <- & Hks).
    exists (k1 :: ks). split; [done|]. by constructor.
Qed.

Lemma Forall2_concat_intro {A B} (P : A → B → Prop) (ls : list (list A))
    (ks : list (list B)) :
  Forall2 (Forall2 P) ls ks → Forall2 P (concat ls) (concat ks).
Proof.
  induction 1 as [|l k ls ks Hlk _ IH]; cbn; [constructor|].
  by apply Forall2_app.
Qed.

Lemma isbn_batches_concat {A} (l : list A) (n : Z) (batches : list (list A)) :
  0 < n → isbn_batches l n = Ok batches → concat batches = l.
Proof.
  intros Hn. rewrite isbn_batches_chunks by done. intros [= <-].
  destruct (range_length_spec (len l) n) as (Hc0 & Hup & _);
    [unfold len; lia|done|].
  apply concat_chunks. unfold len in *. nia.
Qed.

Lemma length_list_mul {A} (l : list A) (k : Z) :
  len (list_mul l k) = Z.max 0 k * len l.
Proof.
  unfold list_mul, len.
  assert (∀ m : nat, length (concat (replicate m l)) = (m * length l)%nat) as Hm.
  { induction m as [|m IH]; [done|]. cbn. rewrite length_app, IH. lia. }
  rewrite Hm. lia.
Qed.

(** X3. Processing a list is processing a first part of it and then the
    rest: [get_desc_wc] on [l1 ++ l2] gives the counts of [l1] followed
    by those of [l2], the second part starting from the requests that the
    first has sent; and when the first part raises, nothing of the second
    part is asked for. *)
Theorem get_desc_wc_app (server : trace → str → http_outcome)
    (l1 l2 : list str) (t : trace) :
  get_desc_wc server (l1 ++ l2) t
  = match get_desc_wc server l1 t with
    | (Ok w1, t1) =>
        (app w1 <$> (get_desc_wc server l2 t1).1, (get_desc_wc server l2 t1).2)
    | (Raise e, t1) => (Raise e, t1)
    end.
Proof.
  rewrite !get_desc_wc_outcomes, outcomes_app.
  destruct (outcomes server l1 t) as [[w1|e] t1]; [|done].
  by rewrite get_desc_wc_outcomes.
Qed.

(** X4. Batching does not change the counts. With a fixed assignment of
    responses to ISBNs and a batch size [n > 0], [get_desc_wc] on the
    whole list returns [wcs] exactly when its calls on the batches, each
    on its own, return lists that, flattened in order, are [wcs]. *)
Theorem get_desc_wc_by_batches (f : str → http_outcome) (l : list str) (n : Z)
    (batches : list (list str)) (t : trace) (wcs : list Z) :
  0 < n →
  isbn_batches l n = Ok batches →
  ((get_desc_wc (assigned f) l t).1 = Ok wcs ↔
   ∃ wss : list (list Z),
     concat wss = wcs ∧
     Forall2 (λ batch ws, ∀ t', (get_desc_wc (assigned f) batch t').1 = Ok ws)
             batches wss).
Proof.
  intros Hn Hbatches. apply isbn_batches_concat in Hbatches; [|done].
  rewrite get_desc_wc_outcomes, outcomes_assigned_Ok, <- Hbatches. split.
  - intros (wss & Hconcat & Hall)%Forall2_concat_inv.
    exists wss. split; [done|].
    eapply Forall2_impl; [done|]. intros batch ws Hws t'.
    rewrite get_desc_wc_outcomes. by apply outcomes_assigned_Ok.
  - intros (wss & <- & Hall). apply Forall2_concat_intro.
    eapply Forall2_impl; [done|]. intros batch ws Hws.
    specialize (Hws []). rewrite get_desc_wc_outcomes in Hws.
    by apply outcomes_assigned_Ok in Hws.
Qed.

(** Five ISBNs in batches of two, of which only the fourth has a
    description. *)
Lemma get_desc_wc_by_batches_witness :
  (get_desc_wc
     (assigned (λ isbn, if decide (isbn = lit "4")
                        then Answer (Response (Some (book "A novel")))
                        else Answer (Response (Some no_items))))
     [lit "1"; lit "2"; lit "3"; lit "4"; lit "5"] []).1
  = Ok [0; 0; 0; 2; 0].
Proof.
  apply (proj2 (get_desc_wc_by_batches
    (λ isbn, if decide (isbn = lit "4")
             then Answer (Response (Some (book "A novel")))
             else Answer (Response (Some no_items)))
    [lit "1"; lit "2"; lit "3"; lit "4"; lit "5"] 2
    [[lit "1"; lit "2"]; [lit "3"; lit "4"]; [lit "5"]] [] [0; 0; 0; 2; 0]
    ltac:(lia) eq_refl)).
  exists [[0; 0]; [0; 2]; [0]]. split; [reflexivity|].
  repeat constructor; intros t'; rewrite get_desc_wc_outcomes;
    vm_compute; reflexivity.
Defined.

(** X5. Repeating the list repeats the counts. With a fixed assignment
    of responses to ISBNs, when [get_desc_wc] returns [wcs] for a list,
    for [isbn_list * k] it returns [wcs * k], after one request per
    element of the repeated list; and the repeated list has [k] times
    the length (none for [k <= 0]). *)
Theorem get_desc_wc_list_mul (f : str → http_outcome) (l : list str)
    (t t' : trace) (wcs : list Z) (k : Z) :
  (get_desc_wc (assigned f) l t).1 = Ok wcs →
  get_desc_wc (assigned f) (list_mul l k) t'
  = (Ok (list_mul wcs k), t' ++ ((λ isbn, url ++ isbn) <$> list_mul l k)) ∧
  len (list_mul l k) = Z.max 0 k * len l.
Proof.
  intros Hwcs. split; [|apply length_list_mul].
  rewrite get_desc_wc_outcomes in *. apply outcomes_assigned_Ok in Hwcs.
  assert ((outcomes (assigned f) (list_mul l k) t').1 = Ok (list_mul wcs k))
    as Hall.
  { apply outcomes_assigned_Ok. unfold list_mul.
    by apply Forall2_concat_intro, Forall2_replicate. }
  destruct (outcomes_trace (assigned f) (list_mul l k) t') as (j & _ & Ht & Hj).
  rewrite Hall in Hj. subst j. unfold urls_of in Ht. rewrite firstn_all in Ht.
  destruct (outcomes (assigned f) (list_mul l k) t') as [r t'']. cbn in *.
  by subst.
Qed.

(** Two ISBNs three times over. *)
Lemma get_desc_wc_list_mul_witness :
  (get_desc_wc
     (assigned (λ isbn, if decide (isbn = lit "4")
                        then Answer (Response (Some (book "A novel")))
                        else Answer (Response (Some no_items))))
     (list_mul [lit "4"; lit "5"] 3) []).1
  = Ok [2; 0; 2; 0; 2; 0].
Proof.
  pose proof (get_desc_wc_list_mul
    (λ isbn, if decide (isbn = lit "4")
             then Answer (Response (Some (book "A novel")))
             else Answer (Response (Some no_items)))
    [lit "4"; lit "5"] [] [] [2; 0] 3) as Hmul.
  destruct Hmul as [Hrun _]; [vm_compute; reflexivity|].
  rewrite Hrun. reflexivity.
Defined.

(** ** More on the batches *)

Lemma isbn_batches_negative {A} (l : list A) (n : Z) :
  n < 0 → isbn_batches l n = Ok [].
Proof.
  intros Hn. unfold isbn_batches, range, range_length, len.
  destruct (Z.eqb_spec n 0) as [?|_]; [lia|].
  destruct (Z.ltb_spec 0 n) as [?|_]; [lia|].
  destruct (Z.ltb_spec (Z.of_nat (length l)) 0) as [?|_]; [lia|]. done.
Qed.

Lemma isbn_batches_zero {A} (l : list A) : isbn_batches l 0 = Raise ValueError.
Proof. done. Qed.

(** X6. Where an ISBN ends up: for a batch size [n > 0], element [j] of
    batch [k] is element [k * n + j] of the list, for every [j < n];
    there is the one exactly when there is the other. *)
Theorem isbn_batches_lookup {A} (l : list A) (n : Z) (batches : list (list A))
    (k j : nat) :
  0 < n →
  isbn_batches l n = Ok batches →
  (j < Z.to_nat n)%nat →
  batches !! k ≫= (λ batch, batch !! j) = l !! (k * Z.to_nat n + j)%nat.
Proof.
  intros Hn Hbatches Hj. rewrite isbn_batches_chunks in Hbatches by done.
  injection Hbatches as <-.
  destruct (range_length_spec (len l) n) as (Hc0 & Hup & _);
    [unfold len; lia|done|].
  set (c := Z.to_nat (range_length 0 (len l) n)) in *.
  rewrite list_lookup_fmap.
  destruct (decide (k < c)%nat) as [Hk|Hk].
  - rewrite lookup_seq_lt by done. cbn.
    by rewrite lookup_take_lt, lookup_drop by done.
  - rewrite lookup_seq_ge by lia. cbn. symmetry.
    apply lookup_ge_None_2. unfold len in *. nia.
Qed.

(** The fourth of five elements is the second of the second batch of
    two. *)
Lemma isbn_batches_lookup_witness :
  [[1; 2]; [3; 4]; [5]] !! 1%nat ≫= (λ batch, batch !! 1%nat)
  = [1; 2; 3; 4; 5] !! (1 * Z.to_nat 2 + 1)%nat.
Proof.
  apply (isbn_batches_lookup [1; 2; 3; 4; 5] 2 [[1; 2]; [3; 4]; [5]] 1 1);
    [lia|reflexivity|vm_compute; lia].
Defined.

(** X7. What the batching cell prints. For a batch size [n > 0] and a
    list that is not empty: the number of batches, which is the length
    divided by [n] and rounded up, and the length of the first batch,
    which is [n] or the whole list if that is shorter. For an empty list,
    or a negative [n], there is no first batch and [isbn_batches[0]]
    raises [IndexError]; for [n = 0] the [range] raises [ValueError]. *)
Theorem batches_shape_cases {A} (l : list A) (n : Z) :
  (0 < n → l ≠ [] →
   batches_shape l n = Ok ((len l + n - 1) / n, Z.min n (len l))) ∧
  (n ≠ 0 → n < 0 ∨ l = [] → batches_shape l n = Raise IndexError) ∧
  (n = 0 → batches_shape l n = Raise ValueError).
Proof.
  unfold batches_shape. split; [|split].
  - intros Hn Hl. rewrite isbn_batches_chunks by done.
    assert (0 < len l) as Hlen by (destruct l; [done|unfold len; cbn; lia]).
    assert (range_length 0 (len l) n = (len l + n - 1) / n) as Hc.
    { unfold range_length. destruct (Z.ltb_spec 0 (len l)) as [_|?]; [|lia].
      replace (len l + n - 1) with (len l - 1 - 0 + 1 * n) by lia.
      rewrite Z.div_add by lia. lia. }
    destruct (range_length_spec (len l) n) as (Hc0 & Hup & Hlow & _);
      [lia|done|].
    destruct (Z.to_nat (range_length 0 (len l) n)) as [|c] eqn:Hnat; [nia|].
    cbn. change (Z.to_nat 0) with 0%nat. cbn. unfold len in *. cbn [length].
    rewrite length_fmap, length_seq, length_take, length_drop. do 2 f_equal.
    + rewrite <- Hc. clear -Hnat Hc0. lia.
    + lia.
  - intros Hn [Hneg| ->].
    + by rewrite isbn_batches_negative.
    + unfold isbn_batches, range, range_length.
      destruct (Z.eqb_spec n 0) as [?|_]; [done|].
      by destruct (0 <? n).
  - by intros ->.
Qed.

(** Five elements in batches of two: three batches, the first of two. *)
Lemma batches_shape_cases_witness :
  batches_shape [1; 2; 3; 4; 5] 2 = Ok (3, 2) ∧
  batches_shape ([] : list Z) 2 = Raise IndexError.
Proof.
  split.
  - apply (proj1 (batches_shape_cases [1; 2; 3; 4; 5] 2)); [lia|done].
  - apply (proj1 (proj2 (batches_shape_cases ([] : list Z) 2))); [lia|by right].
Defined.

(** X8. When batching keeps the list. [isbn_batches] raises only for
    [n = 0] (a [ValueError]); otherwise the batches, flattened, are the
    list exactly when [n] is positive or the list is empty: a negative
    [n] gives no batch at all, whatever the list. *)
Theorem isbn_batches_keeps_all {A} (l : list A) (n : Z) :
  match isbn_batches l n with
  | Raise e => e = ValueError ∧ n = 0
  | Ok batches =>
      n ≠ 0 ∧
      (concat batches = l ↔ 0 < n ∨ l = []) ∧
      (n < 0 → batches = [])
  end.
Proof.
  destruct (Z.lt_trichotomy n 0) as [Hn|[->|Hn]].
  - rewrite isbn_batches_negative by done.
    split; [lia|]. split; [|done]. cbn. split; [auto|].
    intros [?| ->]; [lia|done].
  - by rewrite isbn_batches_zero.
  - destruct (isbn_batches l n) as [batches|e] eqn:Hbatches.
    + split; [lia|]. split; [|lia].
      split; [auto|]. intros _. by apply (isbn_batches_concat l n).
    + by rewrite isbn_batches_chunks in Hbatches.
Qed.

(** ** The first look at one book *)

Lemma first_look_run (server : trace → str → http_outcome)
    (isbn_list : list str) (t : trace) :
  first_look server isbn_list t
  = match isbn_list !! 50%nat with
    | None => (Raise IndexError, t)
    | Some isbn =>
        (match server t (url ++ isbn) with
         | NetworkError => Raise RequestException
         | Answer r =>
             match body r with
             | Some data =>
                 description ← description_of data;
                 words ← method_split description;
                 Ok (len words)
             | None => Raise ValueError
             end
         end, t ++ [url ++ isbn])
    end.
Proof.
  assert (sequence_index isbn_list 50
          = match isbn_list !! 50%nat with
            | Some isbn => Ok isbn
            | None => Raise IndexError
            end) as Hindex by reflexivity.
  unfold first_look. rewrite bind_run. unfold pure at 1. rewrite Hindex.
  destruct (isbn_list !! 50%nat) as [isbn|]; [|done].
  rewrite bind_run. unfold requests_get at 1.
  destruct (server t (url ++ isbn)) as [|[[data|]]];
    rewrite ?bind_run, ?response_json_run; cbn [body]; try done.
  rewrite bind_run. unfold pure at 1.
  destruct (description_of data) as [description|e]; [|done].
  rewrite bind_run. unfold pure at 1. cbn [mbind result_bind].
  by destruct (method_split description).
Qed.

(** X9. The first look and the function. The cells that look at one book
    before the functions are written take the 51st ISBN of the list:
    with fewer ISBNs they raise [IndexError] and send nothing. Otherwise
    they end as [get_desc_wc_parallel] does for that ISBN, with the same
    request, except where the lookup of the description raises
    [KeyError]: there the cells raise it and the function returns
    zero. *)
Theorem first_look_and_function (server : trace → str → http_outcome)
    (isbn_list : list str) (t : trace) :
  (isbn_list !! 50%nat = None →
   first_look server isbn_list t = (Raise IndexError, t)) ∧
  (∀ isbn : str, isbn_list !! 50%nat = Some isbn →
     (∀ data,
        server t (url ++ isbn) = Answer (Response (Some data)) →
        description_of data = Raise KeyError →
        first_look server isbn_list t = (Raise KeyError, t ++ [url ++ isbn]) ∧
        get_desc_wc_parallel server isbn t = (Ok 0, t ++ [url ++ isbn])) ∧
     ((∀ data,
         server t (url ++ isbn) = Answer (Response (Some data)) →
         description_of data ≠ Raise KeyError) →
      first_look server isbn_list t = get_desc_wc_parallel server isbn t)).
Proof.
  rewrite first_look_run. split; [by intros ->|].
  intros isbn ->. rewrite get_desc_wc_parallel_outcome.
  unfold item_outcome, word_count. split.
  - intros data -> Hkey. cbn [body]. by rewrite Hkey.
  - intros Hother. destruct (server t (url ++ isbn)) as [|[[data|]]]; try done.
    cbn [body]. specialize (Hother data eq_refl).
    by destruct (description_of data) as [description|[]].
Qed.

(** A list of 51 ISBNs and a response without ['items']. *)
Lemma first_look_and_function_witness :
  first_look (always no_items) (replicate 51 (lit "0435910108")) []
  = (Raise KeyError, [url ++ lit "0435910108"]) ∧
  get_desc_wc_parallel (always no_items) (lit "0435910108") []
  = (Ok 0, [url ++ lit "0435910108"]).
Proof.
  apply (proj1 (proj2 (first_look_and_function (always no_items)
                         (replicate 51 (lit "0435910108")) [])
                 (lit "0435910108") eq_refl) no_items eq_refl).
  vm_compute. reflexivity.
Defined.

(** ** How large a count can be *)

Lemma token_starts_bound (s : str) :
  (2 * token_starts true s ≤ length s + 1 ∧
   2 * token_starts false s ≤ length s)%nat.
Proof.
  induction s as [|c s [IHt IHf]]; cbn; [lia|].
  destruct (isspace c); lia.
Qed.

Lemma token_starts_zero (s : str) :
  token_starts true s = 0%nat ↔ Forall (λ c, isspace c) s.
Proof.
  induction s as [|c s IH]; cbn.
  - split; [constructor|done].
  - destruct (isspace c) eqn:Hc.
    + rewrite IH. split.
      * intros Hs. constructor; [by apply Is_true_true_2|done].
      * by intros [_ Hs]%Forall_cons.
    + split; [done|]. intros [Hspace _]%Forall_cons.
      by apply Is_true_false_2 in Hc.
Qed.

(** X10. The size of a count. When the description is a string,
    [get_desc_wc_parallel] returns a count that is at most half the
    length of the description, rounded up, and that is zero exactly when
    the description has nothing but whitespace (as when it is empty): a
    zero does not tell a missing description from a blank one. *)
Theorem get_desc_wc_parallel_count_bounds
    (server : trace → str → http_outcome) (isbn : str) (t : trace)
    (data : json) (s : str) :
  server t (url ++ isbn) = Answer (Response (Some data)) →
  description_of data = Ok (JStr s) →
  ∃ n : Z,
    get_desc_wc_parallel server isbn t = (Ok n, t ++ [url ++ isbn]) ∧
    0 ≤ n ∧ 2 * n ≤ len s + 1 ∧
    (n = 0 ↔ Forall (λ c, isspace c) s).
Proof.
  intros Hanswer Hs. exists (Z.of_nat (whitespace_token_count s)).
  rewrite get_desc_wc_parallel_outcome. split.
  - f_equal. apply item_outcome_Ok. exists data. split; [done|].
    left. by exists s.
  - unfold whitespace_token_count, len.
    destruct (token_starts_bound s) as [Hbound _].
    split; [lia|]. split; [lia|].
    rewrite <- token_starts_zero. lia.
Qed.

(** A description of blanks only. *)
Lemma get_desc_wc_parallel_count_bounds_witness :
  ∃ n : Z,
    get_desc_wc_parallel (always (book "   ")) (lit "0435910108") []
    = (Ok n, [] ++ [url ++ lit "0435910108"]) ∧
    0 ≤ n ∧ 2 * n ≤ len (lit "   ") + 1 ∧
    (n = 0 ↔ Forall (λ c, isspace c) (lit "   ")).
Proof.
  apply (get_desc_wc_parallel_count_bounds (always (book "   "))
           (lit "0435910108") [] (book "   ") (lit "   ") eq_refl).
  vm_compute. reflexivity.
Defined.

(** ** How many identifiers a file gives *)

Lemma length_lines_from (cur s : str) :
  10%N ∉ cur →
  length (lines_from cur s)
  = (length (filter (λ c, c = 10%N) s)
     + match last (cur ++ s) with
       | Some c => if (c =? 10)%N then 0 else 1
       | None => 0
       end)%nat.
Proof.
  revert cur. induction s as [|c s IH]; intros cur Hcur.
  - rewrite app_nil_r. cbn. destruct cur as [|c cur]; [done|].
    destruct (last (c :: cur)) as [x|] eqn:Hlast.
    2:{ rewrite last_cons in Hlast. by destruct (last cur). }
    apply last_Some_elem_of in Hlast.
    destruct (N.eqb_spec x 10) as [->|_]; done.
  - cbn [lines_from]. destruct (N.eqb_spec c 10) as [->|Hc].
    + rewrite filter_cons_True by done. cbn [length]. rewrite IH.
      2:{ apply not_elem_of_nil. }
      rewrite last_app_cons, last_cons. cbn [app].
      destruct (last s); [done|]. cbn. lia.
    + rewrite filter_cons_False by done. rewrite IH.
      2:{ rewrite not_elem_of_app, list_elem_of_singleton. auto. }
      by rewrite <- app_assoc.
Qed.

(** X11. How many identifiers are read: one for every line ending of the
    file, and one more when the file has text after its last line
    ending. An empty line counts, and a line ending at the very end of
    the file adds no empty identifier. *)
Theorem read_isbn_list_length (content : str) :
  length (read_isbn_list content)
  = (length (filter (λ c, c = 10%N) (universal_newlines content))
     + match last (universal_newlines content) with
       | Some c => if (c =? 10)%N then 0 else 1
       | None => 0
       end)%nat.
Proof.
  unfold read_isbn_list, file_lines. rewrite length_fmap.
  apply (length_lines_from []), not_elem_of_nil.
Qed.

(** ** Writing the file and reading it back *)

Lemma universal_newlines_clean (x rest : str) :
  13%N ∉ x → universal_newlines (x ++ rest) = x ++ universal_newlines rest.
Proof.
  induction x as [|c x IH]; [done|].
  intros [Hc Hx]%not_elem_of_cons. cbn.
  destruct (N.eqb_spec c 13) as [->|_]; [done|]. by rewrite IH.
Qed.

Lemma universal_newlines_eol (eol rest : str) :
  eol = [10%N] ∨ eol = [13%N; 10%N] ∨ eol = [13%N] →
  (eol = [13%N] → head rest ≠ Some 10%N) →
  universal_newlines (eol ++ rest) = 10%N :: universal_newlines rest.
Proof.
  intros [->|[->| ->]] Hhead; [done|done|].
  destruct rest as [|c rest]; [done|]. cbn.
  destruct (N.eqb_spec c 10) as [->|_]; [|done]. by destruct Hhead.
Qed.

Lemma head_one_per_line (ids : list str) (rest : str) :
  Forall clean ids → 10%N ∉ rest →
  head (one_per_line [13%N] ids rest) ≠ Some 10%N.
Proof.
  intros Hids Hrest. unfold one_per_line.
  destruct Hids as [|id ids [_ [Hid _]] _]; cbn.
  - intros Hhead. apply Hrest. destruct rest; simplify_eq/=. by left.
  - destruct id as [|c id]; cbn; [done|].
    intros [= ->]. apply Hid. by left.
Qed.

Lemma one_per_line_cons (eol id : str) (ids : list str) (rest : str) :
  one_per_line eol (id :: ids) rest = id ++ eol ++ one_per_line eol ids rest.
Proof. unfold one_per_line. cbn. by rewrite <- !app_assoc. Qed.

Lemma universal_newlines_one_per_line (eol : str) (ids : list str) (rest : str) :
  eol = [10%N] ∨ eol = [13%N; 10%N] ∨ eol = [13%N] →
  Forall clean ids → clean rest →
  universal_newlines (one_per_line eol ids rest) = one_per_line [10%N] ids rest.
Proof.
  intros Heol Hids Hrest. induction Hids as [|id ids Hid Hids IH].
  - destruct Hrest as (_ & _ & Hrest). unfold one_per_line. cbn.
    rewrite <- (app_nil_r rest) at 1.
    by rewrite universal_newlines_clean, app_nil_r.
  - rewrite !one_per_line_cons. destruct Hid as (_ & _ & Hid).
    rewrite universal_newlines_clean by done.
    rewrite universal_newlines_eol, IH; [done|done|].
    intros ->. apply head_one_per_line; [done|]. by destruct Hrest as (_ & ? & _).
Qed.

Lemma lines_from_clean (cur x rest : str) :
  10%N ∉ x → lines_from cur (x ++ rest) = lines_from (cur ++ x) rest.
Proof.
  revert cur. induction x as [|c x IH]; intros cur.
  - by rewrite app_nil_r.
  - intros [Hc Hx]%not_elem_of_cons. cbn.
    destruct (N.eqb_spec c 10) as [->|_]; [done|].
    rewrite IH by done. by rewrite <- app_assoc.
Qed.

Lemma lines_from_one_per_line (ids : list str) (rest : str) :
  Forall clean ids → clean rest →
  lines_from [] (one_per_line [10%N] ids rest)
  = ((λ id, id ++ [10%N]) <$> ids) ++ match rest with [] => [] | _ => [rest] end.
Proof.
  intros Hids (_ & Hrest & _). induction Hids as [|id ids Hid Hids IH].
  - unfold one_per_line. cbn. rewrite <- (app_nil_r rest) at 1.
    rewrite lines_from_clean by done. by destruct rest.
  - rewrite one_per_line_cons. destruct Hid as (_ & Hid & _).
    rewrite lines_from_clean by done. cbn. by rewrite IH.
Qed.

Lemma lstrip_app (s x : str) :
  lstrip (s ++ x) = match lstrip s with [] => lstrip x | _ => lstrip s ++ x end.
Proof.
  induction s as [|c s IH]; [done|]. cbn. by destruct (isspace c).
Qed.

Lemma strip_snoc_space (s : str) (c : N) :
  isspace c = true → strip (s ++ [c]) = strip s.
Proof.
  intros Hc. unfold strip. rewrite lstrip_app.
  destruct (lstrip s) as [|c' s'] eqn:Hs.
  - cbn. by rewrite Hc.
  - unfold rstrip. rewrite reverse_snoc. cbn. by rewrite Hc.
Qed.

(** X12. Writing and reading back. A file written with one identifier
    per line, every line ended by the same ["\n"], ["\r\n"] or ["\r"],
    with or without a last line that has no ending, reads back as exactly
    those identifiers, in order, whenever no identifier has whitespace at
    its ends or a line ending inside; an empty line gives the empty
    identifier. *)
Theorem read_isbn_list_of_one_per_line (eol : str) (ids : list str) (rest : str) :
  eol = [10%N] ∨ eol = [13%N; 10%N] ∨ eol = [13%N] →
  Forall clean ids → clean rest →
  read_isbn_list (one_per_line eol ids rest)
  = ids ++ match rest with [] => [] | _ => [rest] end.
Proof.
  intros Heol Hids Hrest. unfold read_isbn_list, file_lines.
  rewrite universal_newlines_one_per_line, lines_from_one_per_line by done.
  rewrite fmap_app. f_equal.
  - induction Hids as [|id ids [Hid _] _ IH]; [done|]. rewrite !fmap_cons.
    rewrite strip_snoc_space by done. by rewrite Hid, IH.
  - destruct Hrest as [Hstrip _]. destruct rest; [done|].
    rewrite fmap_cons. by rewrite Hstrip.
Qed.

(** Two ISBNs and an empty line between them, with Windows line endings
    and no ending after the last. *)
Lemma read_isbn_list_of_one_per_line_witness :
  read_isbn_list
    (one_per_line [13; 10]%N [lit "0435910108"; []] (lit "0618155872"))
  = [lit "0435910108"; []] ++ [lit "0618155872"].
Proof.
  apply (read_isbn_list_of_one_per_line [13; 10]%N [lit "0435910108"; []]
           (lit "0618155872")).
  - auto.
  - repeat constructor; try (vm_compute; reflexivity);
      apply (bool_decide_unpack _); vm_compute; exact I.
  - repeat constructor; try (vm_compute; reflexivity);
      apply (bool_decide_unpack _); vm_compute; exact I.
Defined.

(** ** The order of the list, and the work of one batch *)

Lemma Forall2_Permutation_l {A B} (P : A → B → Prop) (l l' : list A) (k : list B) :
  l ≡ₚ l' → Forall2 P l k → ∃ k', k ≡ₚ k' ∧ Forall2 P l' k'.
Proof.
  intros Hperm. revert k.
  induction Hperm as [|x l l' _ IH|x y l|l l' l'' _ IH1 _ IH2]; intros k Hk.
  - apply Forall2_nil_inv_l in Hk as ->. by exists [].
  - apply Forall2_cons_inv_l in Hk as (z & k0 & Hz & Hk0 & ->).
    destruct (IH k0 Hk0) as (k' & Hperm' & Hk').
    exists (z :: k'). split; [by constructor|by constructor].
  - apply Forall2_cons_inv_l in Hk as (z1 & k1 & Hz1 & Hk1 & ->).
    apply Forall2_cons_inv_l in Hk1 as (z2 & k2 & Hz2 & Hk2 & ->).
    exists (z2 :: z1 :: k2). split; [constructor|by repeat constructor].
  - destruct (IH1 k Hk) as (k' & Hperm' & Hk').
    destruct (IH2 k' Hk') as (k'' & Hperm'' & Hk'').
    exists k''. split; [by etrans|done].
Qed.

(** X13. The order of the ISBNs changes only the order of the counts.
    With a fixed assignment of responses to ISBNs, when [get_desc_wc]
    returns for a list, it returns for every rearrangement of the list,
    and the counts it returns are a rearrangement of the same counts. *)
Theorem get_desc_wc_Permutation (f : str → http_outcome) (l l' : list str)
    (t t' : trace) (wcs : list Z) :
  l ≡ₚ l' →
  (get_desc_wc (assigned f) l t).1 = Ok wcs →
  ∃ wcs', wcs ≡ₚ wcs' ∧ (get_desc_wc (assigned f) l' t').1 = Ok wcs'.
Proof.
  intros Hperm Hwcs. rewrite get_desc_wc_outcomes in Hwcs.
  apply outcomes_assigned_Ok in Hwcs.
  destruct (Forall2_Permutation_l _ l l' wcs Hperm Hwcs) as (wcs' & Hperm' & Hwcs').
  exists wcs'. split; [done|].
  rewrite get_desc_wc_outcomes. by apply outcomes_assigned_Ok.
Qed.

(** Two ISBNs, first in one order and then in the other. *)
Lemma get_desc_wc_Permutation_witness :
  ∃ wcs', [2; 0] ≡ₚ wcs' ∧
    (get_desc_wc
       (assigned (λ isbn, if decide (isbn = lit "4")
                          then Answer (Response (Some (book "A novel")))
                          else Answer (Response (Some no_items))))
       [lit "5"; lit "4"] []).1 = Ok wcs'.
Proof.
  apply (get_desc_wc_Permutation
    (λ isbn, if decide (isbn = lit "4")
             then Answer (Response (Some (book "A novel")))
             else Answer (Response (Some no_items)))
    [lit "4"; lit "5"] [lit "5"; lit "4"] [] [] [2; 0]).
  - constructor.
  - vm_compute. reflexivity.
Defined.

(** X14. The work of one batch. For a batch size [n > 0], the call of
    [get_desc_wc] on any one of the batches sends at least one request
    and at most [n], whatever the server does. *)
Theorem get_desc_wc_batch_requests
    (server : trace → str → http_outcome) (l : list str) (n : Z)
    (batches : list (list str)) (batch : list str) (t : trace) :
  0 < n →
  isbn_batches l n = Ok batches →
  batch ∈ batches →
  ∃ sent : trace,
    (get_desc_wc server batch t).2 = t ++ sent ∧ 1 ≤ len sent ≤ n.
Proof.
  intros Hn Hbatches Hin. rewrite isbn_batches_chunks in Hbatches by done.
  injection Hbatches as <-.
  apply list_elem_of_fmap in Hin as (k & -> & Hk).
  apply elem_of_seq in Hk as [_ Hk]. cbn in Hk.
  destruct (range_length_spec (len l) n) as (Hc0 & Hup & Hlow & Hzero);
    [unfold len; lia|done|].
  set (c := Z.to_nat (range_length 0 (len l) n)) in *.
  set (batch := take (Z.to_nat n) (drop (k * Z.to_nat n) l)).
  assert (1 ≤ length batch ≤ Z.to_nat n)%nat as Hsize.
  { unfold len in *.
    apply (chunk_length l (Z.to_nat n) c k); [lia|nia|nia|done]. }
  rewrite get_desc_wc_outcomes.
  destruct (outcomes_trace server batch t) as (j & Hj & Htrace & Hend).
  exists (urls_of batch j). split; [done|].
  unfold len, urls_of. rewrite length_fmap, length_take.
  destruct (outcomes server batch t).1 as [wcs|e].
  - subst j. lia.
  - destruct Hend as (j' & _ & -> & _). lia.
Qed.

(** The last of the batches of two of five ISBNs, which has one ISBN. *)
Lemma get_desc_wc_batch_requests_witness :
  ∃ sent : trace,
    (get_desc_wc (always no_items) [lit "5"] []).2 = [] ++ sent ∧
    1 ≤ len sent ≤ 2.
Proof.
  apply (get_desc_wc_batch_requests (always no_items)
           [lit "1"; lit "2"; lit "3"; lit "4"; lit "5"] 2
           [[lit "1"; lit "2"]; [lit "3"; lit "4"]; [lit "5"]]).
  - lia.
  - reflexivity.
  - apply (bool_decide_unpack _). vm_compute. exact I.
Defined.
